(** * configure_server: asset synchronisation before a game-server launch

    A shallow embedding of [scripts/configure_server.py] and the properties
    its specification states about it.

    The script talks to three things outside itself: the object store (a
    boto3 client), the local file system, and two codecs (JSON and bzip2).
    The object store is a record of responses, the file system is a finite
    map from paths to contents inside an explicit [world], the codecs are
    section variables.  Python exceptions are values of [exn]; every
    effectful function of the script is a computation in the monad [M]
    that threads the world and may raise. *)

From Stdlib Require Import Ascii String ZArith.
From stdpp Require Import base list strings gmap fin_maps.

Local Open Scope string_scope.

(** ** Python string primitives used by the script *)

Module PyStr.

(** [s.split(sep)] for a one-character separator: never returns the
    empty list, ["".split("/")] is [[""]]. *)
Fixpoint split (sep : ascii) (s : string) : list string :=
  match s with
  | EmptyString => [EmptyString]
  | String c r =>
      if Ascii.eqb c sep then EmptyString :: split sep r
      else match split sep r with
           | h :: t => String c h :: t
           | [] => [String c EmptyString]
           end
  end.

(** [sep.join(l)]. *)
Fixpoint join (sep : string) (l : list string) : string :=
  match l with
  | [] => EmptyString
  | [x] => x
  | x :: rest => x ++ sep ++ join sep rest
  end.

(** [c in s]. *)
Fixpoint contains (c : ascii) (s : string) : bool :=
  match s with
  | EmptyString => false
  | String d r => Ascii.eqb d c || contains c r
  end.

(** [s.endswith(suffix)]. *)
Fixpoint endswith (s suffix : string) : bool :=
  String.eqb s suffix ||
  match s with
  | EmptyString => false
  | String _ r => endswith r suffix
  end.

(** [s.startswith(prefix)]. *)
Definition startswith (s pre : string) : bool := String.prefix pre s.

(** [s.split(sep, 1)] when [sep] occurs in [s]: the text before the
    first occurrence and the text after it; [(s, "")] otherwise. *)
Fixpoint partition (sep : ascii) (s : string) : string * string :=
  match s with
  | EmptyString => (EmptyString, EmptyString)
  | String c r =>
      if Ascii.eqb c sep then (EmptyString, r)
      else let '(a, b) := partition sep r in (String c a, b)
  end.

(** [posixpath.basename(p)]: the text after the last ["/"]. *)
Definition basename (p : string) : string :=
  List.last (split "/" p) EmptyString.

End PyStr.

(** ** Exceptions *)

Inductive exn : Type :=
| ClientError (code : string)      (* botocore.exceptions.ClientError *)
| BotoCoreError (what : string)    (* transport failures: not a ClientError *)
| KeyError (key : string)
| TypeError (what : string)
| AttributeError (what : string)
| ValueError (what : string)
| FileNotFoundError
| FileExistsError
| IsADirectoryError
| NotADirectoryError
| UnsupportedOperation (what : string)
| OSError (what : string)
| JSONDecodeError.

Inductive result (A : Type) : Type :=
| Ok (a : A)
| Raise (e : exn).
Arguments Ok {A} a.
Arguments Raise {A} e.

Definition is_ok {A} (r : result A) : bool :=
  match r with Ok _ => true | Raise _ => false end.

(** ** S3Path: the pure part *)

Record S3Path : Type := mkS3Path { bucket : string; key : string }.

(** [urllib.parse.urlparse], as far as [from_url] looks at it.

    Modelled on CPython's [urlsplit] for ASCII input without control
    characters or leading blanks (which newer versions strip before they
    parse).  The scheme is the text before the first [":"] when that text
    is non-empty, starts with a letter and consists of scheme characters,
    and is lower-cased.  A network location is present exactly when the
    rest starts with ["//"] and runs to the first of ["/"], ["?"], ["#"];
    a host with an unmatched square bracket raises [ValueError].  Fragment
    and query are cut off the path.  ["s3"] is not among the schemes with
    path parameters, so the path keeps any [";"].  Absent components are
    the empty string, never [None]. *)
Module UrlParse.

Record ParseResult : Type :=
  mkParseResult { scheme : string; netloc : string; path : string;
                  query : string; fragment : string }.

Definition is_alpha (c : ascii) : bool :=
  let n := nat_of_ascii c in
  (((65 <=? n) && (n <=? 90)) || ((97 <=? n) && (n <=? 122)))%nat.

Definition is_digit (c : ascii) : bool :=
  let n := nat_of_ascii c in ((48 <=? n) && (n <=? 57))%nat.

(** membership in [scheme_chars]: letters, digits and ["+-."] *)
Definition is_scheme_char (c : ascii) : bool :=
  is_alpha c || is_digit c ||
  Ascii.eqb c "+" || Ascii.eqb c "-" || Ascii.eqb c ".".

Definition lower_char (c : ascii) : ascii :=
  let n := nat_of_ascii c in
  if ((65 <=? n) && (n <=? 90))%nat then ascii_of_nat (n + 32) else c.

Fixpoint lower (s : string) : string :=
  match s with
  | EmptyString => EmptyString
  | String c r => String (lower_char c) (lower r)
  end.

Fixpoint all_chars (p : ascii -> bool) (s : string) : bool :=
  match s with
  | EmptyString => true
  | String c r => p c && all_chars p r
  end.

(** the scheme step: [(scheme, rest)] *)
Definition split_scheme (url : string) : string * string :=
  if PyStr.contains ":" url then
    let '(pre, rest) := PyStr.partition ":" url in
    match pre with
    | EmptyString => (EmptyString, url)
    | String c0 _ =>
        if is_alpha c0 && all_chars is_scheme_char pre
        then (lower pre, rest)
        else (EmptyString, url)
    end
  else (EmptyString, url).

(** [_splitnetloc(url, 2)] on a [url] that starts with ["//"], given the
    text after the two slashes: up to the first of ["/?#"]. *)
Fixpoint splitnetloc (s : string) : string * string :=
  match s with
  | EmptyString => (EmptyString, EmptyString)
  | String c r =>
      if Ascii.eqb c "/" || Ascii.eqb c "?" || Ascii.eqb c "#"
      then (EmptyString, s)
      else let '(a, b) := splitnetloc r in (String c a, b)
  end.

Definition bad_brackets (netloc : string) : bool :=
  let l := PyStr.contains "[" netloc in
  let r := PyStr.contains "]" netloc in
  (l && negb r) || (r && negb l).

Definition urlparse (url0 : string) : result ParseResult :=
  let '(sch, url1) := split_scheme url0 in
  let step_netloc :=
    match url1 with
    | String "/" (String "/" after) =>
        let '(nl, rest) := splitnetloc after in
        if bad_brackets nl then Raise (ValueError "Invalid IPv6 URL")
        else Ok (nl, rest)
    | _ => Ok (EmptyString, url1)
    end in
  match step_netloc with
  | Raise e => Raise e
  | Ok (nl, url2) =>
      let '(url3, frag) := PyStr.partition "#" url2 in
      let '(url4, qry) := PyStr.partition "?" url3 in
      Ok (mkParseResult sch nl url4 qry frag)
  end.

End UrlParse.

(** The script's test [result.netloc is not None].  [netloc] is a string,
    and a string is never [None]. *)
Definition is_not_None (s : string) : bool := true.

(** [S3Path.from_url]: [Ok None] is the script's [return None]. *)
Definition from_url (url : string) : result (option S3Path) :=
  match UrlParse.urlparse url with
  | Raise e => Raise e
  | Ok r =>
      if String.eqb (UrlParse.scheme r) "s3" && is_not_None (UrlParse.netloc r)
      then Ok (Some (mkS3Path (UrlParse.netloc r) (UrlParse.path r)))
      else Ok None
  end.

(** [S3Path.base_name] *)
Definition base_name (self : S3Path) : string := PyStr.basename (key self).

(** [S3Path.navigate(self, *args)] *)
Definition navigate (self : S3Path) (args : list string) : S3Path :=
  let elements := PyStr.split "/" (key self) in
  let new_path := PyStr.join "/" (elements ++ args)%list in
  mkS3Path (bucket self) ("/" ++ new_path).

(** [S3Path.url] *)
Definition url (self : S3Path) : string := "s3://" ++ bucket self ++ key self.

(** ** pathlib *)

Module PyPath.

(** How a POSIX path starts: relative, ["/"], or exactly two slashes
    (which pathlib keeps apart from ["/"]). *)
Inductive anchor : Type := Relative | Root | Root2.

Record Path : Type := mkPath { root : anchor; parts : list string }.

Fixpoint leading_slashes (s : string) : nat :=
  match s with
  | String "/" r => S (leading_slashes r)
  | _ => 0
  end.

Definition is_component (s : string) : bool :=
  negb (String.eqb s "") && negb (String.eqb s ".").

(** [PurePosixPath(s)]: empty and ["."] components are dropped. *)
Definition parse (s : string) : Path :=
  mkPath (match leading_slashes s with
          | 0 => Relative
          | 2 => Root2
          | _ => Root
          end)
         (List.filter is_component (PyStr.split "/" s)).

(** [p / s]: an absolute right operand replaces the left one. *)
Definition joinpath (p : Path) (s : string) : Path :=
  let q := parse s in
  match root q with
  | Relative => mkPath (root p) (parts p ++ parts q)
  | _ => q
  end.

Definition parent (p : Path) : Path :=
  mkPath (root p) (List.removelast (parts p)).

Definition anchor_code (a : anchor) : nat :=
  match a with Relative => 0 | Root => 1 | Root2 => 2 end.

#[global] Instance anchor_eq_dec : EqDecision anchor.
Proof. solve_decision. Defined.

#[global] Instance Path_eq_dec : EqDecision Path.
Proof. solve_decision. Defined.

#[global] Instance anchor_countable : Countable anchor.
Proof.
  refine (inj_countable' anchor_code
            (fun n => match n with 0 => Relative | 1 => Root | _ => Root2 end) _).
  intros []; reflexivity.
Defined.

#[global] Instance Path_countable : Countable Path.
Proof.
  refine (inj_countable' (fun p => (root p, parts p))
            (fun rp => mkPath (fst rp) (snd rp)) _).
  intros []; reflexivity.
Defined.

(** [p] is [d] or lies below it. *)
Definition is_under (d p : Path) : bool :=
  bool_decide (root d = root p) && bool_decide (parts d `prefix_of` parts p).

End PyPath.

Import PyPath.

Notation "p // s" := (joinpath p s) (at level 40, left associativity).

(** ** The world the script runs in *)

Definition bytes : Type := list Byte.byte.

(** What the run does that an observer outside the process can see, in
    the order it happens. *)
Inductive event : Type :=
| Print (line : string)
| ListPage (bkt prefix : string)          (* one page asked of the paginator *)
| HeadObject (bkt k : string)
| GetObject (bkt k : string)
| DownloadFileobj (bkt k : string)
| OpenFile (p : Path) (mode : string)
| MkDtemp (p : Path)
| RmTree (p : Path).

(** The local machine: regular files, directories, the names the
    temporary-name generator will propose next, and the events so far.
    Paths are pathlib's lexical paths; symbolic links are not modelled. *)
Record world : Type := mkWorld {
  files : gmap Path bytes;
  dirs : gset Path;
  tmp_supply : list Path;
  trace : list event
}.

Definition set_files (f : gmap Path bytes -> gmap Path bytes) (w : world) : world :=
  mkWorld (f (files w)) (dirs w) (tmp_supply w) (trace w).

Definition set_dirs (f : gset Path -> gset Path) (w : world) : world :=
  mkWorld (files w) (f (dirs w)) (tmp_supply w) (trace w).

Definition log (e : event) (w : world) : world :=
  mkWorld (files w) (dirs w) (tmp_supply w) (trace w ++ [e])%list.

(** ** The monad: world passing with exceptions *)

Definition M (A : Type) : Type := world -> result A * world.

Definition ret {A} (a : A) : M A := fun w => (Ok a, w).

Definition raise {A} (e : exn) : M A := fun w => (Raise e, w).

Definition bind {A B} (m : M A) (k : A -> M B) : M B :=
  fun w => match m w with
           | (Ok a, w1) => k a w1
           | (Raise e, w1) => (Raise e, w1)
           end.

Definition lift {A} (r : result A) : M A := fun w => (r, w).

Definition emit (e : event) : M unit := fun w => (Ok tt, log e w).

Definition modify (f : world -> world) : M unit := fun w => (Ok tt, f w).

Definition get_world : M world := fun w => (Ok w, w).

(** [try: m finally: cleanup], for a cleanup that cannot fail *)
Definition finally {A} (m : M A) (cleanup : world -> world) : M A :=
  fun w => let '(r, w1) := m w in (r, cleanup w1).

Declare Scope py_scope.
Delimit Scope py_scope with py.
Notation "x ← y ; z" := (bind y (fun x => z))
  (at level 20, y at level 100, z at level 200, only parsing) : py_scope.
Notation "x ;; z" := (bind x (fun _ => z))
  (at level 100, z at level 200, only parsing, right associativity) : py_scope.
Local Open Scope py_scope.

(** [for x in l: body(x)] *)
Fixpoint for_each {A} (l : list A) (body : A -> M unit) : M unit :=
  match l with
  | [] => ret tt
  | x :: rest => body x ;; for_each rest body
  end.

(** ** Files *)

(** [Path.open("wb")]: creates or truncates. *)
Definition open_wb (p : Path) : M unit :=
  emit (OpenFile p "wb") ;;
  w ← get_world;
  if bool_decide (p ∈ dirs w) then raise IsADirectoryError
  else if bool_decide (is_Some (files w !! parent p)) then raise NotADirectoryError
  else if bool_decide (parent p ∈ dirs w)
       then modify (set_files (insert p []))
       else raise FileNotFoundError.

(** Opening for reading ([Path.open()], [open("rb")], [BZ2File(path)]):
    the content at that moment. *)
Definition open_read (mode : string) (p : Path) : M bytes :=
  emit (OpenFile p mode) ;;
  w ← get_world;
  if bool_decide (p ∈ dirs w) then raise IsADirectoryError
  else match files w !! p with
       | Some content => ret content
       | None => raise FileNotFoundError
       end.

(** A file object: where it writes and whether it was opened for writing. *)
Record fileobj : Type := mkFileobj { fo_path : Path; fo_writable : bool }.

(** [fd.write(buf)] *)
Definition write (fd : fileobj) (buf : bytes) : M unit :=
  if fo_writable fd
  then modify (set_files (fun fs => <[fo_path fd := (default [] (fs !! fo_path fd) ++ buf)%list]> fs))
  else raise (UnsupportedOperation "write").

(** [shutil.copyfileobj(fsrc, fdst)]: [while buf := fsrc.read(n):
    fdst.write(buf)].  The source is given by what its reads deliver
    before they end ([data]) and by how they end ([None]: end of stream,
    [Some e]: the read raises [e]). *)
Definition copyfileobj (src : bytes * option exn) (fdst : fileobj) : M unit :=
  match fst src with
  | [] => ret tt
  | _ :: _ => write fdst (fst src)
  end ;;
  match snd src with
  | None => ret tt
  | Some e => raise e
  end.

(** [tempfile.mkdtemp]: the first proposed name that does not exist yet;
    [FileExistsError] when the proposals run out. *)
Fixpoint fresh_name (fs : gmap Path bytes) (ds : gset Path) (names : list Path)
  : option (Path * list Path) :=
  match names with
  | [] => None
  | n :: rest =>
      if bool_decide (n ∈ ds) || bool_decide (is_Some (fs !! n))
      then fresh_name fs ds rest
      else Some (n, rest)
  end.

Definition mkdtemp : M Path :=
  fun w =>
    match fresh_name (files w) (dirs w) (tmp_supply w) with
    | None => (Raise FileExistsError, mkWorld (files w) (dirs w) [] (trace w))
    | Some (n, rest) =>
        (Ok n, log (MkDtemp n) (mkWorld (files w) ({[n]} ∪ dirs w) rest (trace w)))
    end.

(** [shutil.rmtree(d)]: [d] and everything below it is gone. *)
Definition rmtree (d : Path) (w : world) : world :=
  log (RmTree d)
    (mkWorld (filter (fun kv => is_under d kv.1 = false) (files w))
             (filter (fun p => is_under d p = false) (dirs w))
             (tmp_supply w) (trace w)).

(** [with tempfile.TemporaryDirectory() as tmpdir: body(tmpdir)] *)
Definition with_TemporaryDirectory {A} (body : Path -> M A) : M A :=
  tmpdir ← mkdtemp;
  finally (body tmpdir) (rmtree tmpdir).

(** ** The object store client *)

(** One entry of a listing page (a dict with a ["Key"] field among
    others) and one page (a dict that carries ["Contents"] only when the
    prefix matched something). *)
Definition s3object : Type := gmap string string.
Definition page : Type := gmap string (list s3object).

(** What the client answers, one field per call the script makes.
    [paginate] gives the pages in the order the paginator delivers them; a
    [Raise] entry is a page request that fails.  [download_fileobj] gives
    the bytes that end up in the file object. *)
Record S3Client : Type := mkS3Client {
  paginate : string -> string -> list (result page);
  head_object : string -> string -> result unit;
  get_object : string -> string -> result bytes;
  download_fileobj : string -> string -> result bytes
}.

(** A manifest: the items of the parsed JSON object, in its order. *)
Definition manifest : Type := list (string * string).

(** Values that reach [from_object] as positional arguments. *)
Inductive pyval : Type :=
| VStr (s : string)
| VDict (d : s3object).

(** Binding positional arguments to the two parameters [bucket] and
    [object] that follow [cls]. *)
Definition bind_bucket_object (args : list pyval) : result (pyval * pyval) :=
  match args with
  | [b; o] => Ok (b, o)
  | [] => Raise (TypeError "missing 2 required positional arguments: 'bucket' and 'object'")
  | [_] => Raise (TypeError "missing 1 required positional argument: 'object'")
  | _ => Raise (TypeError "takes 3 positional arguments but more were given")
  end.

(** [S3Path.from_object(bucket, object)], called with the positional
    arguments [args]: [cls(bucket, object["Key"])].  The record holds a
    string bucket, as annotated; a dict in that place is refused here (no
    call in the script passes one there). *)
Definition from_object (args : list pyval) : result S3Path :=
  match bind_bucket_object args with
  | Raise e => Raise e
  | Ok (b, o) =>
      match o with
      | VStr _ => Raise (TypeError "string indices must be integers")
      | VDict d =>
          match d !! "Key" with
          | None => Raise (KeyError "Key")
          | Some k =>
              match b with
              | VStr bkt => Ok (mkS3Path bkt k)
              | VDict _ => Raise (TypeError "bucket: str")
              end
          end
      end
  end.

(** [for page in paginator.paginate(...): body(page)] *)
Fixpoint for_each_page (bkt prefix : string) (pages : list (result page))
    (body : page -> M unit) : M unit :=
  match pages with
  | [] => ret tt
  | r :: rest =>
      emit (ListPage bkt prefix) ;;
      pg ← lift r;
      body pg ;;
      for_each_page bkt prefix rest body
  end.

(** [S3Path.ls], a generator: [consume] is what the loop driving the
    generator does with each yielded object, so effects interleave as
    they do in Python.  [map(self.from_object, page["Contents"])] calls
    the bound class method with one positional argument per entry. *)
Definition ls (self : S3Path) (client : S3Client) (consume : S3Path -> M unit) : M unit :=
  for_each_page (bucket self) (key self) (paginate client (bucket self) (key self))
    (fun pg =>
       match pg !! "Contents" with
       | None => raise (KeyError "Contents")
       | Some contents =>
           for_each contents (fun entry =>
             obj ← lift (from_object [VDict entry]);
             consume obj)
       end).

(** [S3Path.get(client, fd)] *)
Definition get (self : S3Path) (client : S3Client) (fd : fileobj) : M unit :=
  emit (DownloadFileobj (bucket self) (key self)) ;;
  body ← lift (download_fileobj client (bucket self) (key self));
  write fd body.

(** [S3Path.is_object] *)
Definition is_object (self : S3Path) (client : S3Client) : M bool :=
  emit (HeadObject (bucket self) (key self)) ;;
  match head_object client (bucket self) (key self) with
  | Ok _ => ret true
  | Raise (ClientError _) => ret false
  | Raise e => raise e
  end.

Section Script.

(** The two codecs.  [json_load] parses a manifest; [bz2_read] gives what
    reading a [BZ2File] over the given compressed bytes delivers (see
    [copyfileobj]). *)
Variable json_load : bytes -> result manifest.
Variable bz2_read : bytes -> bytes * option exn.

(** [S3Path.load_json] *)
Definition load_json (self : S3Path) (client : S3Client) : M manifest :=
  emit (GetObject (bucket self) (key self)) ;;
  body ← lift (get_object client (bucket self) (key self));
  lift (json_load body).

(** ** RuntimeContext *)

Record RuntimeContext : Type := mkRuntimeContext {
  map_location : option S3Path;
  config_location : option S3Path;
  working_dir : Path;
  home_dir : Path;
  s3 : S3Client
}.

Definition is_maps_provided (self : RuntimeContext) : bool :=
  match map_location self with Some _ => true | None => false end.

Definition is_config_provided (self : RuntimeContext) : bool :=
  match config_location self with Some _ => true | None => false end.

(** Attribute access on an optional location *)
Definition deref (o : option S3Path) : M S3Path :=
  match o with
  | Some loc => ret loc
  | None => raise (AttributeError "'NoneType' object has no attribute")
  end.

(** [RuntimeContext.maps], a generator like [ls] *)
Definition maps (self : RuntimeContext) (consume : S3Path -> M unit) : M unit :=
  loc ← deref (map_location self);
  ls loc (s3 self) (fun obj =>
    if PyStr.endswith (key obj) ".bsp.bz2" then consume obj else ret tt).

Definition map_dir (self : RuntimeContext) : Path := working_dir self // "maps".

Definition static_manifest_path (self : RuntimeContext) : Path :=
  home_dir self // "manifest.json".

(** [RuntimeContext.config_manifest] *)
Definition config_manifest (self : RuntimeContext) : M manifest :=
  loc ← deref (config_location self);
  let dynamic_manifest := navigate loc ["manifest.json"] in
  found ← is_object dynamic_manifest (s3 self);
  if found then load_json dynamic_manifest (s3 self)
  else
    content ← open_read "r" (static_manifest_path self);
    lift (json_load content).

(** [RuntimeContext.download_map] *)
Definition download_map (self : RuntimeContext) (tmpdir : Path) (obj : S3Path) : M unit :=
  let tmpfile := tmpdir // base_name obj in
  let mapfile := map_dir self // base_name obj in
  (open_wb tmpfile ;;
   get obj (s3 self) (mkFileobj tmpfile true)) ;;
  compressed ← open_read "rb" tmpfile;
  _ ← open_read "rb" mapfile;
  copyfileobj (bz2_read compressed) (mkFileobj mapfile false).

(** [RuntimeContext.download_maps] *)
Definition download_maps (self : RuntimeContext) : M unit :=
  with_TemporaryDirectory (fun tmpdir =>
    maps self (fun obj => download_map self tmpdir obj)).

(** [RuntimeContext.download_configuration_file] *)
Definition download_configuration_file (self : RuntimeContext)
    (filename directory : string) : M unit :=
  let target_path := working_dir self // directory // filename in
  loc ← deref (config_location self);
  let source_path := navigate loc [filename] in
  open_wb target_path ;;
  get source_path (s3 self) (mkFileobj target_path true).

(** [RuntimeContext.download_configuration_files] *)
Definition download_configuration_files (self : RuntimeContext) : M unit :=
  m ← config_manifest self;
  for_each m (fun '(filename, directory) =>
    download_configuration_file self filename directory).

(** ** Entry point *)

(** What the process gets from its surroundings: the current and the
    home directory (both already resolved) and the client that
    [boto3.client("s3")] returns. *)
Record Env : Type := mkEnv { cwd : Path; home : Path; boto3_client : S3Client }.

(** [RuntimeContext.from_urls], reached through [parse_args] with the
    values of [--maps] and [--config] (each [""] when not given). *)
Definition from_urls (env : Env) (map_url config_url : string) : M RuntimeContext :=
  ml ← lift (from_url map_url);
  cl ← lift (from_url config_url);
  ret (mkRuntimeContext ml cl (cwd env) (home env) (boto3_client env)).

Definition print (line : string) : M unit := emit (Print line).

Definition main (env : Env) (map_url config_url : string) : M Z :=
  print "Beginning server configuration..." ;;
  ctx ← from_urls env map_url config_url;
  (if is_maps_provided ctx then
     loc ← deref (map_location ctx);
     print ("Downloading custom maps from repository: " ++ url loc) ;;
     download_maps ctx
   else
     print "Skipping custom map download - no map repository provided") ;;
  (if is_config_provided ctx then
     loc ← deref (config_location ctx);
     print ("Downloading dynamic configuration from repository: " ++ url loc) ;;
     download_configuration_files ctx
   else
     print "Skipping dynamic configuration - no configuration repository provided") ;;
  print "Server configuration successful - starting SRCDS..." ;;
  ret 0%Z.

(** [sys.exit(main())]: the returned value, or 1 after an uncaught
    exception. *)
Definition exit_code (r : result Z) : Z :=
  match r with Ok n => n | Raise _ => 1%Z end.


(** ** Vocabulary of the properties: manifest resolution, phases, sync *)

(** The location probed, fetched on success: [manifest.json] below the
    configuration location. *)
Definition dynamic_manifest (loc : S3Path) : S3Path := navigate loc ["manifest.json"].

Definition probe (loc : S3Path) : event :=
  HeadObject (bucket (dynamic_manifest loc)) (key (dynamic_manifest loc)).

Definition fetch (loc : S3Path) : event :=
  GetObject (bucket (dynamic_manifest loc)) (key (dynamic_manifest loc)).

(** Reading and parsing the static manifest. *)
Definition static_fallback (ctx : RuntimeContext) : M manifest :=
  content ← open_read "r" (static_manifest_path ctx);
  lift (json_load content).

(** The first conditional of [main]. *)
Definition maps_phase (ctx : RuntimeContext) : M unit :=
  if is_maps_provided ctx then
    loc ← deref (map_location ctx);
    print ("Downloading custom maps from repository: " ++ url loc) ;;
    download_maps ctx
  else
    print "Skipping custom map download - no map repository provided".

(** The second conditional of [main]. *)
Definition config_phase (ctx : RuntimeContext) : M unit :=
  if is_config_provided ctx then
    loc ← deref (config_location ctx);
    print ("Downloading dynamic configuration from repository: " ++ url loc) ;;
    download_configuration_files ctx
  else
    print "Skipping dynamic configuration - no configuration repository provided".

(** Where a manifest entry goes, where it comes from, and what syncing
    it shows to the outside. *)
Definition target_path (ctx : RuntimeContext) (filename directory : string) : Path :=
  working_dir ctx // directory // filename.

Definition source_path (loc : S3Path) (filename : string) : S3Path :=
  navigate loc [filename].

Definition remote_object (ctx : RuntimeContext) (loc : S3Path) (filename : string)
  : result bytes :=
  download_fileobj (s3 ctx) (bucket (source_path loc filename))
                   (key (source_path loc filename)).

Definition transfer_events (ctx : RuntimeContext) (loc : S3Path)
    (entry : string * string) : list event :=
  [OpenFile (target_path ctx entry.1 entry.2) "wb";
   DownloadFileobj (bucket (source_path loc entry.1)) (key (source_path loc entry.1))].

(** The files after a manifest has been synced, entry by entry in the
    manifest's order. *)
Definition synced (ctx : RuntimeContext) (loc : S3Path) (m : manifest)
    (fs : gmap Path bytes) : gmap Path bytes :=
  foldl (fun acc entry =>
           <[target_path ctx entry.1 entry.2 :=
               match remote_object ctx loc entry.1 with
               | Ok body => body
               | Raise _ => []
               end]> acc)
        fs m.

(** The loop of [download_configuration_files]. *)
Definition sync_loop (ctx : RuntimeContext) (m : manifest) : M unit :=
  for_each m (fun '(filename, directory) =>
    download_configuration_file ctx filename directory).

End Script.

(** ** Vocabulary of the properties: strings, addresses, events *)

(** [s] does not contain the separator. *)
Definition sep_free (sep : ascii) (s : string) : Prop :=
  PyStr.contains sep s = false.

(** A container name as an address can spell it: non-empty, without the
    characters that end a network location, brackets (if any) paired. *)
Definition wellformed_bucket (bkt : string) : Prop :=
  bkt <> EmptyString /\
  PyStr.contains "/" bkt = false /\ PyStr.contains "?" bkt = false /\
  PyStr.contains "#" bkt = false /\ UrlParse.bad_brackets bkt = false.

(** A key prefix as an address can spell it: empty or starting at a
    ["/"], without the characters that start a query or a fragment. *)
Definition wellformed_key (k : string) : Prop :=
  (k = EmptyString \/ exists r, k = String "/" r) /\
  PyStr.contains "?" k = false /\ PyStr.contains "#" k = false.

(** Calls that reach the object store. *)
Definition is_remote_call (e : event) : bool :=
  match e with
  | ListPage _ _ | HeadObject _ _ | GetObject _ _ | DownloadFileobj _ _ => true
  | _ => false
  end.

(** What only manifest resolution does: the existence probe, the fetch of
    the dynamic manifest, and opening a file in text mode. *)
Definition is_config_event (e : event) : bool :=
  match e with
  | HeadObject _ _ | GetObject _ _ => true
  | OpenFile _ mode => String.eqb mode "r"
  | _ => false
  end.

(** What only the maps phase does: listing, and making and removing the
    scratch directory. *)
Definition is_maps_event (e : event) : bool :=
  match e with
  | ListPage _ _ | MkDtemp _ | RmTree _ => true
  | _ => false
  end.

(** [emits P m]: running [m] only appends events, all of them in [P]. *)
Definition emits {A} (P : event -> bool) (m : M A) : Prop :=
  forall w, exists t,
    trace (snd (m w)) = (trace w ++ t)%list /\ Forall (fun e => P e = true) t.

Definition not_config_event (e : event) : bool := negb (is_config_event e).
Definition not_maps_event (e : event) : bool := negb (is_maps_event e).

(** Output lines, and the last line of a successful run. *)
Definition is_print (e : event) : bool :=
  match e with Print _ => true | _ => false end.

Definition is_success_notice (e : event) : bool :=
  match e with
  | Print line => String.eqb line "Server configuration successful - starting SRCDS..."
  | _ => false
  end.

Definition not_success_notice (e : event) : bool := negb (is_success_notice e).

(** An entry is ready in a world: its destination is no directory, the
    directory to hold it is there, and the remote object can be fetched. *)
Definition entry_ready (ctx : RuntimeContext) (loc : S3Path) (w : world)
    (entry : string * string) : Prop :=
  (target_path ctx entry.1 entry.2 ∉ dirs w) /\
  (parent (target_path ctx entry.1 entry.2) ∈ dirs w) /\
  files w !! parent (target_path ctx entry.1 entry.2) = None /\
  is_ok (remote_object ctx loc entry.1) = true.

(** ** Fixtures: a small deployment to run the script on *)

Module Fixture.

Definition b (s : string) : bytes := list_byte_of_string s.

(** A stand-in JSON parser: recognises the two manifests used below. *)
Definition toy_json (x : bytes) : result manifest :=
  match x with
  | Byte.x64 :: _ => Ok [("server.cfg", "cfg"); ("motd.txt", "cfg")]
  | Byte.x73 :: _ => Ok [("server.cfg", "cfg")]
  | _ => Raise JSONDecodeError
  end.

(** A stand-in bzip2 reader: a stream is its content behind a ["B"]. *)
Definition toy_bz2 (x : bytes) : bytes * option exn :=
  match x with
  | Byte.x42 :: rest => (rest, None)
  | _ => ([], Some (OSError "Invalid data stream"))
  end.

Definition entry (k : string) : s3object := {[ "Key" := k ]}.

Definition listing (keys : list string) : list (result page) :=
  [Ok ({[ "Contents" := List.map entry keys ]} : page)].

(** Every object exists; its payload is ["B"] followed by its key. *)
Definition payload (k : string) : bytes := b ("B" ++ k).

(** A store with a dynamic manifest. *)
Definition store_dynamic : S3Client :=
  mkS3Client (fun _ _ => listing ["a.bsp.bz2"; "a.txt"; "b.bsp.bz2"])
             (fun _ _ => Ok tt)
             (fun _ _ => Ok (b "dynamic"))
             (fun _ k => Ok (payload k)).

(** A store whose existence probe is refused (403), not "not found". *)
Definition store_forbidden : S3Client :=
  mkS3Client (fun _ _ => listing ["a.bsp.bz2"; "a.txt"; "b.bsp.bz2"])
             (fun _ _ => Raise (ClientError "403"))
             (fun _ _ => Raise (ClientError "403"))
             (fun _ k => Ok (payload k)).

(** A store that cannot be reached at all. *)
Definition store_unreachable : S3Client :=
  mkS3Client (fun _ _ => [Raise (BotoCoreError "EndpointConnectionError")])
             (fun _ _ => Raise (BotoCoreError "EndpointConnectionError"))
             (fun _ _ => Raise (BotoCoreError "EndpointConnectionError"))
             (fun _ _ => Raise (BotoCoreError "EndpointConnectionError")).

(** A store where the prefix matches nothing: one page, no ["Contents"]. *)
Definition store_empty : S3Client :=
  mkS3Client (fun _ _ => [Ok (∅ : page)])
             (fun _ _ => Raise (ClientError "404"))
             (fun _ _ => Raise (ClientError "NoSuchKey"))
             (fun _ _ => Raise (ClientError "404")).

Definition srv : Path := parse "/srv".
Definition steam : Path := parse "/home/steam".
Definition scratch : Path := parse "/tmp/tmpk3x".

Definition w0 : world :=
  mkWorld {[ steam // "manifest.json" := b "static" ]}
          {[ parse "/"; srv; srv // "cfg"; srv // "maps"; parse "/home"; steam;
             parse "/tmp" ]}
          [scratch] [].

(** [w0] once the scratch directory exists, and the same with a file
    already at [maps/a.bsp.bz2]. *)
Definition w_scratch : world :=
  mkWorld (files w0) ({[scratch]} ∪ dirs w0) [] [].

Definition w_taken : world :=
  mkWorld (<[srv // "maps" // "a.bsp.bz2" := []]> (files w0))
          ({[scratch]} ∪ dirs w0) [] [].

Definition maps_loc : S3Path := mkS3Path "fastdl" "/gmod/maps".
Definition config_loc : S3Path := mkS3Path "cfg" "/gmod".

Definition ctx_of (client : S3Client) : RuntimeContext :=
  mkRuntimeContext (Some maps_loc) (Some config_loc) srv steam client.

Definition env_of (client : S3Client) : Env := mkEnv srv steam client.


(** A store whose listing is one page without entries and whose objects
    are archives of nothing. *)
Definition store_hollow : S3Client :=
  mkS3Client (fun _ _ => listing [])
             (fun _ _ => Ok tt)
             (fun _ _ => Ok (b "dynamic"))
             (fun _ _ => Ok (b "B")).

Definition a_map : S3Path := mkS3Path "fastdl" "/gmod/maps/a.bsp.bz2".

(** The deployment without its static manifest. *)
Definition w_bare : world := mkWorld ∅ (dirs w0) [] [].

End Fixture.

(** * Properties *)

(** ** Strings *)

Section SplitJoin.

Variable sep : ascii.

Lemma split_nonempty s : PyStr.split sep s <> [].
Proof.
  destruct s as [|c r]; simpl; [discriminate|].
  destruct (Ascii.eqb c sep); [discriminate|].
  destruct (PyStr.split sep r); discriminate.
Qed.

Lemma split_sep_free s : sep_free sep s -> PyStr.split sep s = [s].
Proof.
  unfold sep_free. induction s as [|c r IH]; simpl; [reflexivity|].
  destruct (Ascii.eqb c sep); simpl; [discriminate|].
  intros H. rewrite (IH H). reflexivity.
Qed.

Lemma split_cons_sep s : PyStr.split sep (String sep s) = EmptyString :: PyStr.split sep s.
Proof. simpl. rewrite Ascii.eqb_refl. reflexivity. Qed.

Lemma split_app_sep a s :
  sep_free sep a -> PyStr.split sep (a ++ String sep s) = a :: PyStr.split sep s.
Proof.
  unfold sep_free. induction a as [|c r IH]; simpl.
  - intros _. rewrite Ascii.eqb_refl. reflexivity.
  - destruct (Ascii.eqb c sep); simpl; [discriminate|].
    intros H. rewrite (IH H). reflexivity.
Qed.

Lemma split_parts_sep_free s : Forall (sep_free sep) (PyStr.split sep s).
Proof.
  unfold sep_free. induction s as [|c r IH]; simpl.
  - repeat constructor.
  - destruct (Ascii.eqb c sep) eqn:E.
    + constructor; [reflexivity|exact IH].
    + destruct (PyStr.split sep r) as [|h t].
      * repeat constructor. simpl. rewrite E. reflexivity.
      * inversion IH; subst. constructor; [|assumption].
        simpl. rewrite E. assumption.
Qed.

Lemma split_join l :
  l <> [] -> Forall (sep_free sep) l ->
  PyStr.split sep (PyStr.join (String sep EmptyString) l) = l.
Proof.
  induction l as [|x rest IH]; [congruence|].
  intros _ Hall. inversion Hall as [|? ? Hx Hrest]; subst.
  destruct rest as [|y rest'].
  - simpl. apply split_sep_free. assumption.
  - change (PyStr.join (String sep EmptyString) (x :: y :: rest'))
      with (x ++ String sep (PyStr.join (String sep EmptyString) (y :: rest'))).
    rewrite split_app_sep by assumption.
    rewrite IH; [reflexivity|discriminate|assumption].
Qed.

Lemma join_split s : PyStr.join (String sep EmptyString) (PyStr.split sep s) = s.
Proof.
  induction s as [|c r IH]; simpl; [reflexivity|].
  destruct (Ascii.eqb c sep) eqn:E.
  - apply Ascii.eqb_eq in E. subst c.
    pose proof (split_nonempty r) as Hne.
    destruct (PyStr.split sep r) as [|h t]; [congruence|].
    simpl in *. rewrite IH. reflexivity.
  - destruct (PyStr.split sep r) as [|h t] eqn:Es.
    + exfalso. eapply split_nonempty. eassumption.
    + destruct t; simpl in *; rewrite <- IH; reflexivity.
Qed.

End SplitJoin.

Lemma endswith_cons c r suffix :
  PyStr.endswith (String c r) suffix
  = String.eqb (String c r) suffix || PyStr.endswith r suffix.
Proof. reflexivity. Qed.

Lemma endswith_spec s suffix :
  PyStr.endswith s suffix = true <-> exists pre, s = pre ++ suffix.
Proof.
  split.
  - induction s as [|c r IH].
    + destruct suffix; [|discriminate]. exists EmptyString. reflexivity.
    + rewrite endswith_cons. intros H. apply orb_true_iff in H. destruct H as [H|H].
      * apply String.eqb_eq in H. exists EmptyString. exact H.
      * destruct (IH H) as [pre ->]. exists (String c pre). reflexivity.
  - intros [pre ->]. induction pre as [|c r IH].
    + change (EmptyString ++ suffix) with suffix.
      destruct suffix; [reflexivity|].
      rewrite endswith_cons, String.eqb_refl. reflexivity.
    + change (String c r ++ suffix) with (String c (r ++ suffix)).
      rewrite endswith_cons, IH. apply orb_true_r.
Qed.

(** ** Remote locations *)

Example navigate_manifest :
  navigate (mkS3Path "cfg" "/gmod") ["manifest.json"]
  = mkS3Path "cfg" "//gmod/manifest.json".
Proof. reflexivity. Qed.

Example navigate_relative_key :
  navigate (mkS3Path "cfg" "gmod/etc") ["a"; "b"] = mkS3Path "cfg" "/gmod/etc/a/b".
Proof. reflexivity. Qed.



Lemma partition_absent c s :
  PyStr.contains c s = false -> PyStr.partition c s = (s, EmptyString).
Proof.
  induction s as [|d r IH]; simpl; [reflexivity|].
  destruct (Ascii.eqb d c); simpl; [discriminate|].
  intros H. rewrite (IH H). reflexivity.
Qed.

Lemma splitnetloc_app bkt k :
  PyStr.contains "/" bkt = false -> PyStr.contains "?" bkt = false ->
  PyStr.contains "#" bkt = false ->
  (k = EmptyString \/ exists r, k = String "/" r) ->
  UrlParse.splitnetloc (bkt ++ k) = (bkt, k).
Proof.
  intros H1 H2 H3 Hk. induction bkt as [|c r IH].
  - destruct Hk as [->|[r ->]]; reflexivity.
  - simpl in *.
    destruct (Ascii.eqb c "/"); [discriminate|].
    destruct (Ascii.eqb c "?"); [discriminate|].
    destruct (Ascii.eqb c "#"); [discriminate|].
    simpl in *. rewrite (IH H1 H2 H3). reflexivity.
Qed.

(** Parsing a well-formed address gives its container and its key. *)
Lemma from_url_wellformed bkt k :
  wellformed_bucket bkt -> wellformed_key k ->
  from_url ("s3://" ++ bkt ++ k) = Ok (Some (mkS3Path bkt k)).
Proof.
  intros (_ & Hs & Hq & Hf & Hb) (Hk & Hkq & Hkf).
  unfold from_url, UrlParse.urlparse.
  change (UrlParse.split_scheme ("s3://" ++ bkt ++ k))
    with ("s3", String "/" (String "/" (bkt ++ k))).
  cbv iota beta.
  rewrite (splitnetloc_app bkt k Hs Hq Hf Hk), Hb.
  rewrite (partition_absent "#" k Hkf), (partition_absent "?" k Hkq).
  reflexivity.
Qed.


Example from_url_fastdl :
  from_url "s3://fastdl.example/gmod/maps"
  = Ok (Some (mkS3Path "fastdl.example" "/gmod/maps")).
Proof. reflexivity. Qed.

Example from_url_empty : from_url "" = Ok None.
Proof. reflexivity. Qed.

Example from_url_other_scheme : from_url "https://fastdl.example/gmod" = Ok None.
Proof. reflexivity. Qed.

Example from_url_raises :
  from_url "s3://[fastdl/gmod" = Raise (ValueError "Invalid IPv6 URL").
Proof. reflexivity. Qed.

(** [is not None] holds of every network location, also of the empty one. *)
Lemma from_url_s3_never_absent u r :
  UrlParse.urlparse u = Ok r -> UrlParse.scheme r = "s3" ->
  from_url u = Ok (Some (mkS3Path (UrlParse.netloc r) (UrlParse.path r))).
Proof. intros H Hs. unfold from_url. rewrite H, Hs. reflexivity. Qed.

(** C5. Addresses with the scheme ["s3"] and no container are parsed into
    a location with the empty bucket instead of being reported absent:
    the guard on the network location compares with [None], and the
    parser's network location is a string. *)
Theorem from_url_missing_container :
  from_url "s3:///maps" = Ok (Some (mkS3Path "" "/maps")) /\
  from_url "s3:" = Ok (Some (mkS3Path "" "")) /\
  from_url "s3:maps" = Ok (Some (mkS3Path "" "maps")).
Proof. repeat split. Qed.

(** ** Running the monad by unfolding *)

Ltac unfold_monad :=
  unfold print, bind, ret, raise, lift, emit, modify, get_world, finally in *.

Section Properties.

Variable json_load : bytes -> result manifest.
Variable bz2_read : bytes -> bytes * option exn.

(** ** Manifest resolution *)

(** C1 as the code has it. A probe that raises [ClientError], whatever its
    error code, selects the static fallback; a probe that raises anything
    else aborts manifest resolution and the configuration phase with that
    error, after the probe and nothing more. *)
Theorem probe_error_policy (ctx : RuntimeContext) (loc : S3Path) (e : exn) (w : world) :
  config_location ctx = Some loc ->
  head_object (s3 ctx) (bucket (dynamic_manifest loc)) (key (dynamic_manifest loc))
    = Raise e ->
  match e with
  | ClientError _ =>
      config_manifest json_load ctx w = static_fallback json_load ctx (log (probe loc) w)
  | _ =>
      config_manifest json_load ctx w = (Raise e, log (probe loc) w) /\
      download_configuration_files json_load ctx w = (Raise e, log (probe loc) w)
  end.
Proof.
  intros Hloc Hhead.
  unfold download_configuration_files, config_manifest, static_fallback,
    is_object, deref.
  unfold probe, dynamic_manifest in *.
  rewrite Hloc. unfold_monad. cbv zeta. rewrite Hhead.
  destruct e; first [reflexivity | split; reflexivity].
Qed.


(** ** A run without sources *)


(** ** What a computation adds to the trace *)

Lemma emits_ret {A} P (a : A) : emits P (ret a).
Proof. intros w. exists []. split; [symmetry; apply app_nil_r|constructor]. Qed.

Lemma emits_raise {A} P e : emits P (@raise A e).
Proof. intros w. exists []. split; [symmetry; apply app_nil_r|constructor]. Qed.

Lemma emits_lift {A} P (r : result A) : emits P (lift r).
Proof. intros w. exists []. split; [symmetry; apply app_nil_r|constructor]. Qed.

Lemma emits_get_world P : emits P get_world.
Proof. intros w. exists []. split; [symmetry; apply app_nil_r|constructor]. Qed.

Lemma emits_emit P e : P e = true -> emits P (emit e).
Proof. intros H w. exists [e]. split; [reflexivity|repeat constructor; exact H]. Qed.

Lemma emits_modify P f : (forall w, trace (f w) = trace w) -> emits P (modify f).
Proof.
  intros H w. exists []. cbn. rewrite H. split; [symmetry; apply app_nil_r|constructor].
Qed.

Lemma emits_bind {A B} P (m : M A) (k : A -> M B) :
  emits P m -> (forall a, emits P (k a)) -> emits P (bind m k).
Proof.
  intros Hm Hk w. unfold bind. destruct (Hm w) as (t1 & E1 & F1).
  destruct (m w) as [[a|e] w1]; cbn [snd] in *.
  - destruct (Hk a w1) as (t2 & E2 & F2). exists (t1 ++ t2)%list.
    rewrite E2, E1, app_assoc. split; [reflexivity|]. apply Forall_app; auto.
  - exists t1. auto.
Qed.

Lemma emits_finally {A} P (m : M A) cleanup :
  emits P m ->
  (forall w, exists t, trace (cleanup w) = (trace w ++ t)%list /\
                       Forall (fun e => P e = true) t) ->
  emits P (finally m cleanup).
Proof.
  intros Hm Hc w. unfold finally. destruct (Hm w) as (t1 & E1 & F1).
  destruct (m w) as [r w1]; cbn [snd] in *.
  destruct (Hc w1) as (t2 & E2 & F2). exists (t1 ++ t2)%list.
  rewrite E2, E1, app_assoc. split; [reflexivity|]. apply Forall_app; auto.
Qed.

Lemma emits_for_each {A} P (l : list A) (body : A -> M unit) :
  (forall x, emits P (body x)) -> emits P (for_each l body).
Proof.
  intros Hb. induction l as [|x rest IH]; cbn [for_each].
  - apply emits_ret.
  - apply emits_bind; [apply Hb|intros _; exact IH].
Qed.

Lemma emits_for_each_page P bkt prefix pages (body : page -> M unit) :
  P (ListPage bkt prefix) = true ->
  (forall pg, emits P (body pg)) -> emits P (for_each_page bkt prefix pages body).
Proof.
  intros HP Hb. induction pages as [|r rest IH]; cbn [for_each_page].
  - apply emits_ret.
  - apply emits_bind; [apply emits_emit, HP|intros _].
    apply emits_bind; [apply emits_lift|intros pg].
    apply emits_bind; [apply Hb|intros _; exact IH].
Qed.

Lemma emits_mkdtemp P : (forall p, P (MkDtemp p) = true) -> emits P mkdtemp.
Proof.
  intros HP w. unfold mkdtemp.
  destruct (fresh_name _ _ _) as [[n rest]|]; cbn [snd trace log].
  - exists [MkDtemp n]. split; [reflexivity|repeat constructor; apply HP].
  - exists []. split; [symmetry; apply app_nil_r|constructor].
Qed.

Lemma rmtree_trace d w : trace (rmtree d w) = (trace w ++ [RmTree d])%list.
Proof. reflexivity. Qed.

(** One step of a proof that a script function emits only events in [P]:
    follow the structure of the code. *)
Ltac emits_step :=
  lazymatch goal with
  | |- emits _ (bind _ _) => apply emits_bind; [|intros ?]
  | |- emits _ (ret _) => apply emits_ret
  | |- emits _ (raise _) => apply emits_raise
  | |- emits _ (lift _) => apply emits_lift
  | |- emits _ get_world => apply emits_get_world
  | |- emits _ (emit _) => apply emits_emit; reflexivity
  | |- emits _ (print _) => apply emits_emit; reflexivity
  | |- emits _ (modify _) => apply emits_modify; intros ?; reflexivity
  | |- emits _ (for_each _ _) => apply emits_for_each; intros ?
  | |- emits _ (if ?b then _ else _) => destruct b
  | |- emits _ (match ?x with _ => _ end) => destruct x
  | |- emits _ (let '(_, _) := ?x in _) => destruct x
  end.

Ltac emits_auto := repeat emits_step.

Lemma emits_open_wb P p : P (OpenFile p "wb") = true -> emits P (open_wb p).
Proof.
  intros HP. unfold open_wb.
  apply emits_bind; [apply emits_emit, HP|intros _]. emits_auto.
Qed.

Lemma emits_open_read P mode p : P (OpenFile p mode) = true -> emits P (open_read mode p).
Proof.
  intros HP. unfold open_read.
  apply emits_bind; [apply emits_emit, HP|intros _]. emits_auto.
Qed.

Lemma emits_write P fd buf : emits P (write fd buf).
Proof. unfold write. emits_auto. Qed.

Lemma emits_get P self client fd :
  P (DownloadFileobj (bucket self) (key self)) = true -> emits P (get self client fd).
Proof.
  intros HP. unfold get.
  apply emits_bind; [apply emits_emit, HP|intros _].
  apply emits_bind; [apply emits_lift|intros ?]. apply emits_write.
Qed.

Lemma emits_copyfileobj P src fd : emits P (copyfileobj src fd).
Proof.
  unfold copyfileobj.
  apply emits_bind; [destruct (fst src); [apply emits_ret|apply emits_write]|intros _].
  emits_auto.
Qed.

Lemma emits_ls P self client consume :
  P (ListPage (bucket self) (key self)) = true ->
  (forall obj, emits P (consume obj)) -> emits P (ls self client consume).
Proof.
  intros HP Hc. unfold ls. apply emits_for_each_page; [exact HP|intros pg].
  destruct (pg !! "Contents"); [|apply emits_raise].
  apply emits_for_each. intros entry.
  apply emits_bind; [apply emits_lift|intros obj; apply Hc].
Qed.

Lemma download_map_not_config ctx tmpdir obj :
  emits not_config_event (download_map bz2_read ctx tmpdir obj).
Proof.
  unfold download_map. cbv zeta.
  apply emits_bind; [|intros _].
  { apply emits_bind; [apply emits_open_wb; reflexivity|intros _].
    apply emits_get; reflexivity. }
  apply emits_bind; [apply emits_open_read; reflexivity|intros ?].
  apply emits_bind; [apply emits_open_read; reflexivity|intros ?].
  apply emits_copyfileobj.
Qed.

Lemma download_maps_not_config ctx :
  emits not_config_event (download_maps bz2_read ctx).
Proof.
  unfold download_maps, with_TemporaryDirectory.
  apply emits_bind; [apply emits_mkdtemp; reflexivity|intros tmpdir].
  apply emits_finally.
  - unfold maps, deref. apply emits_bind; [emits_auto|intros loc].
    apply emits_ls; [reflexivity|intros obj].
    destruct (PyStr.endswith _ _); [apply download_map_not_config|apply emits_ret].
  - intros w. exists [RmTree tmpdir]. split; [reflexivity|repeat constructor].
Qed.

Lemma config_manifest_not_maps ctx :
  emits not_maps_event (config_manifest json_load ctx).
Proof.
  unfold config_manifest, deref. apply emits_bind; [emits_auto|intros loc]. cbv zeta.
  apply emits_bind.
  - unfold is_object. emits_auto.
  - intros [|].
    + unfold load_json. emits_auto.
    + apply emits_bind; [apply emits_open_read; reflexivity|intros ?; apply emits_lift].
Qed.

Lemma download_configuration_files_not_maps ctx :
  emits not_maps_event (download_configuration_files json_load ctx).
Proof.
  unfold download_configuration_files.
  apply emits_bind; [apply config_manifest_not_maps|intros m].
  apply emits_for_each. intros [filename directory].
  unfold download_configuration_file, deref. cbv zeta.
  apply emits_bind; [emits_auto|intros loc].
  apply emits_bind; [apply emits_open_wb; reflexivity|intros _].
  apply emits_get; reflexivity.
Qed.

(** ** The two phases of [main] *)

Lemma main_phases env map_url config_url :
  main json_load bz2_read env map_url config_url =
  (print "Beginning server configuration..." ;;
   ctx ← from_urls env map_url config_url;
   maps_phase bz2_read ctx ;;
   config_phase json_load ctx ;;
   print "Server configuration successful - starting SRCDS..." ;;
   ret 0%Z).
Proof. reflexivity. Qed.

Lemma maps_phase_not_config ctx : emits not_config_event (maps_phase bz2_read ctx).
Proof.
  unfold maps_phase, deref. destruct (is_maps_provided ctx).
  - apply emits_bind; [emits_auto|intros loc].
    apply emits_bind; [apply emits_emit; reflexivity|intros _].
    apply download_maps_not_config.
  - apply emits_emit; reflexivity.
Qed.

Lemma config_phase_not_maps ctx : emits not_maps_event (config_phase json_load ctx).
Proof.
  unfold config_phase, deref. destruct (is_config_provided ctx).
  - apply emits_bind; [emits_auto|intros loc].
    apply emits_bind; [apply emits_emit; reflexivity|intros _].
    apply download_configuration_files_not_maps.
  - apply emits_emit; reflexivity.
Qed.

Lemma from_urls_trace env map_url config_url w r w1 :
  from_urls env map_url config_url w = (r, w1) -> w1 = w.
Proof.
  unfold from_urls. unfold_monad.
  destruct (from_url map_url); [destruct (from_url config_url)|]; congruence.
Qed.

(** C6. Whatever a run of [main] adds to the trace splits in two: a first
    part without any configuration-phase action, and a second part
    without any maps-phase action.  When the maps phase raises, [main]
    raises the same error in the same world, and the second part is
    empty: nothing of the configuration phase has happened. *)
Theorem maps_phase_before_config_phase (env : Env) (map_url config_url : string) (w : world) :
  exists tm tc,
    trace (snd (main json_load bz2_read env map_url config_url w))
      = (trace w ++ tm ++ tc)%list /\
    Forall (fun e => is_config_event e = false) tm /\
    Forall (fun e => is_maps_event e = false) tc /\
    (forall ctx w1 e w2,
       from_urls env map_url config_url
         (log (Print "Beginning server configuration...") w) = (Ok ctx, w1) ->
       maps_phase bz2_read ctx w1 = (Raise e, w2) ->
       main json_load bz2_read env map_url config_url w = (Raise e, w2) /\ tc = []).
Proof.
  rewrite main_phases.
  assert (Hneg : forall (P : event -> bool) t,
             Forall (fun e => negb (P e) = true) t -> Forall (fun e => P e = false) t).
  { intros P t H. eapply Forall_impl; [exact H|]. intros e. apply negb_true_iff. }
  unfold bind at 1. unfold print at 1. unfold emit at 1.
  set (w0 := log (Print "Beginning server configuration...") w).
  assert (Htr0 : trace w0 = (trace w ++ [Print "Beginning server configuration..."])%list)
    by reflexivity.
  unfold bind at 1.
  destruct (from_urls env map_url config_url w0) as [[ctx|e0] w1] eqn:Eurls.
  2:{ apply from_urls_trace in Eurls. subst w1.
      exists [Print "Beginning server configuration..."], [].
      cbn [snd]. rewrite app_nil_r.
      split; [exact Htr0|]. split; [repeat constructor|]. split; [constructor|].
      intros; discriminate. }
  pose proof (from_urls_trace _ _ _ _ _ _ Eurls) as ->.
  unfold bind at 1.
  destruct (maps_phase_not_config ctx w0) as (t1 & E1 & F1).
  destruct (maps_phase bz2_read ctx w0) as [[[]|e1] w2] eqn:Emaps; cbn [snd] in E1.
  2:{ exists (Print "Beginning server configuration..." :: t1), [].
      cbn [snd]. rewrite E1, Htr0, app_nil_r, <- app_assoc.
      split; [reflexivity|].
      split; [constructor; [reflexivity|apply Hneg, F1]|]. split; [constructor|].
      intros ctx' w1' e w2' Hu Hm. inversion Hu; subst ctx' w1'.
      rewrite Emaps in Hm. inversion Hm; subst e w2'.
      subst w0. unfold bind, print, emit. rewrite Eurls, Emaps.
      split; reflexivity. }
  unfold bind at 1.
  destruct (config_phase_not_maps ctx w2) as (t2 & E2 & F2).
  destruct (config_phase json_load ctx w2) as [[[]|e2] w3] eqn:Ecfg; cbn [snd] in E2.
  - exists (Print "Beginning server configuration..." :: t1),
      (t2 ++ [Print "Server configuration successful - starting SRCDS..."])%list.
    unfold_monad. cbn [snd trace log]. rewrite E2, E1, Htr0, <- !app_assoc.
    split; [reflexivity|].
    split; [constructor; [reflexivity|apply Hneg, F1]|].
    split; [apply Forall_app; split; [apply Hneg, F2|repeat constructor]|].
    intros ctx' w1' e w2' Hu Hm. inversion Hu; subst ctx' w1'.
    rewrite Emaps in Hm. discriminate.
  - exists (Print "Beginning server configuration..." :: t1), t2.
    cbn [snd]. rewrite E2, E1, Htr0, <- !app_assoc.
    split; [reflexivity|].
    split; [constructor; [reflexivity|apply Hneg, F1]|].
    split; [apply Hneg, F2|].
    intros ctx' w1' e w2' Hu Hm. inversion Hu; subst ctx' w1'.
    rewrite Emaps in Hm. discriminate.
Qed.

(** ** The scratch directory *)

Lemma is_under_refl d : is_under d d = true.
Proof.
  unfold is_under. rewrite !bool_decide_eq_true_2; reflexivity.
Qed.

Lemma rmtree_removes d w p :
  is_under d p = true ->
  files (rmtree d w) !! p = None /\ p ∉ dirs (rmtree d w).
Proof.
  intros Hu. unfold rmtree. cbn [files dirs log]. split.
  - apply map_lookup_filter_None. right. intros x _. cbn. congruence.
  - rewrite elem_of_filter. intros [H _]. congruence.
Qed.

Lemma with_TemporaryDirectory_cleans {A} (body : Path -> M A) w tmp w1 :
  mkdtemp w = (Ok tmp, w1) ->
  with_TemporaryDirectory body w
    = (fst (body tmp w1), rmtree tmp (snd (body tmp w1))).
Proof.
  intros Hmk. unfold with_TemporaryDirectory, bind, finally. rewrite Hmk.
  destruct (body tmp w1); reflexivity.
Qed.

(** C7. Once the maps phase has its scratch directory, the world it ends
    in, with whatever result, has neither that directory nor any file or
    directory below it; removing it is the last thing the phase does. *)
Theorem scratch_removed (ctx : RuntimeContext) (w w1 : world) (tmp : Path) :
  mkdtemp w = (Ok tmp, w1) ->
  let w' := snd (download_maps bz2_read ctx w) in
  (tmp ∉ dirs w') /\
  (forall p, is_under tmp p = true -> files w' !! p = None /\ p ∉ dirs w') /\
  last (trace w') = Some (RmTree tmp).
Proof.
  intros Hmk. unfold download_maps.
  rewrite (with_TemporaryDirectory_cleans _ _ _ _ Hmk). cbn [snd].
  split; [|split].
  - apply rmtree_removes, is_under_refl.
  - intros p Hp. apply rmtree_removes, Hp.
  - rewrite rmtree_trace. apply last_snoc.
Qed.

(** ** Enumeration *)

Lemma for_each_page_step bkt prefix r rest (body : page -> M unit) w :
  for_each_page bkt prefix (r :: rest) body w =
  match r with
  | Raise e => (Raise e, log (ListPage bkt prefix) w)
  | Ok pg =>
      match body pg (log (ListPage bkt prefix) w) with
      | (Ok _, w1) => for_each_page bkt prefix rest body w1
      | (Raise e, w1) => (Raise e, w1)
      end
  end.
Proof. destruct r; reflexivity. Qed.

Lemma for_each_page_ext bkt prefix pages (body1 body2 : page -> M unit) :
  (forall pg w, body1 pg w = body2 pg w) ->
  forall w, for_each_page bkt prefix pages body1 w
            = for_each_page bkt prefix pages body2 w.
Proof.
  intros Hext. induction pages as [|r rest IH]; intros w; [reflexivity|].
  rewrite !for_each_page_step. destruct r as [pg|e]; [|reflexivity].
  rewrite Hext. destruct (body2 pg _) as [[[]|e] w1]; [apply IH|reflexivity].
Qed.

(** The loop over the entries of one page: [from_object] is called with
    the entry as its only argument, so the first entry ends the loop. *)
Lemma contents_loop (consume : S3Path -> M unit) (contents : list s3object) w :
  for_each contents
    (fun entry => obj ← lift (from_object [VDict entry]); consume obj) w
  = match contents with
    | [] => (Ok tt, w)
    | _ :: _ =>
        (Raise (TypeError "missing 1 required positional argument: 'object'"), w)
    end.
Proof. destruct contents; reflexivity. Qed.

(** [ls] never hands an object to the loop that drives it. *)
Lemma ls_never_yields self client consume w :
  ls self client consume w = ls self client (fun _ => ret tt) w.
Proof.
  unfold ls. apply for_each_page_ext. intros pg w'.
  destruct (pg !! "Contents"); [|reflexivity].
  rewrite !contents_loop. reflexivity.
Qed.

Lemma ls_missing_contents self client consume pg :
  Ok pg ∈ paginate client (bucket self) (key self) ->
  pg !! "Contents" = None ->
  forall w, is_ok (fst (ls self client consume w)) = false.
Proof.
  intros Hin Hpg w. unfold ls. revert w.
  generalize dependent (paginate client (bucket self) (key self)).
  intros pages. induction pages as [|r rest IH]; intros Hin w.
  - apply elem_of_nil in Hin. contradiction.
  - rewrite for_each_page_step. cbv beta.
    apply elem_of_cons in Hin. destruct Hin as [<-|Hin].
    + rewrite Hpg. reflexivity.
    + destruct r as [pg'|e]; [|reflexivity].
      destruct (pg' !! "Contents") as [contents|]; [|reflexivity].
      rewrite contents_loop. destruct contents; [apply IH, Hin|reflexivity].
Qed.

(** C10. If some page of the listing carries no ["Contents"] entry,
    enumerating the location ends in an error whatever the consumer does,
    and so does the maps phase over that location; when that page is the
    whole listing (a prefix that matches nothing), the error is the
    failed lookup of ["Contents"], right after the one page request. *)
Theorem enumeration_requires_contents (ctx : RuntimeContext) (loc : S3Path) (pg : page) :
  map_location ctx = Some loc ->
  Ok pg ∈ paginate (s3 ctx) (bucket loc) (key loc) ->
  pg !! "Contents" = None ->
  (forall consume w, is_ok (fst (ls loc (s3 ctx) consume w)) = false) /\
  (forall w, is_ok (fst (download_maps bz2_read ctx w)) = false) /\
  (paginate (s3 ctx) (bucket loc) (key loc) = [Ok pg] ->
   forall consume w,
     ls loc (s3 ctx) consume w
       = (Raise (KeyError "Contents"), log (ListPage (bucket loc) (key loc)) w)).
Proof.
  intros Hloc Hin Hpg. split; [|split].
  - intros consume w. eapply ls_missing_contents; eassumption.
  - intros w. unfold download_maps, with_TemporaryDirectory. unfold bind at 1.
    destruct (mkdtemp w) as [[tmp|e] w1]; [|reflexivity].
    unfold finally, maps, deref. rewrite Hloc. unfold bind at 1. unfold ret at 1.
    pose proof (ls_missing_contents loc (s3 ctx)
      (fun obj => if PyStr.endswith (key obj) ".bsp.bz2"
                  then download_map bz2_read ctx tmp obj else ret tt) pg Hin Hpg w1) as H.
    destruct (ls _ _ _ w1) as [r w2]. exact H.
  - intros Hpages consume w. unfold ls. rewrite Hpages. cbn [for_each_page].
    unfold_monad. rewrite Hpg. reflexivity.
Qed.

(** ** Configuration files *)

Lemma for_each_app {A} (l1 l2 : list A) (body : A -> M unit) w :
  for_each (l1 ++ l2) body w =
  match for_each l1 body w with
  | (Ok _, w1) => for_each l2 body w1
  | (Raise e, w1) => (Raise e, w1)
  end.
Proof.
  revert w. induction l1 as [|x rest IH]; intros w; [reflexivity|].
  cbn [for_each app]. unfold bind.
  destruct (body x w) as [[[]|e] w1]; [apply IH|reflexivity].
Qed.

Lemma download_configuration_file_ok ctx loc filename directory w w' :
  config_location ctx = Some loc ->
  download_configuration_file ctx filename directory w = (Ok tt, w') ->
  exists body,
    remote_object ctx loc filename = Ok body /\
    w' = mkWorld (<[target_path ctx filename directory := body]> (files w))
                 (dirs w) (tmp_supply w)
                 (trace w ++ transfer_events ctx loc (filename, directory)).
Proof.
  intros Hloc. unfold download_configuration_file, deref, open_wb, get, write.
  rewrite Hloc. cbv zeta. fold (target_path ctx filename directory).
  fold (source_path loc filename). unfold remote_object, transfer_events.
  cbn [fst snd fo_path fo_writable].
  unfold_monad. cbn [dirs files log].
  repeat case_bool_decide; try discriminate.
  cbn [set_files files dirs tmp_supply trace log].
  destruct (download_fileobj _ _ _) as [body|e]; [|discriminate].
  intros Hrun. inversion Hrun; subst w'; clear Hrun. exists body. split; [reflexivity|].
  unfold set_files, log. cbn [files dirs tmp_supply trace].
  rewrite lookup_insert_eq, insert_insert_eq, <- app_assoc. reflexivity.
Qed.

Lemma sync_loop_ok ctx loc m :
  config_location ctx = Some loc ->
  forall w w', sync_loop ctx m w = (Ok tt, w') ->
    files w' = synced ctx loc m (files w) /\
    dirs w' = dirs w /\
    trace w' = (trace w ++ flat_map (transfer_events ctx loc) m)%list /\
    Forall (fun entry => is_ok (remote_object ctx loc entry.1) = true) m.
Proof.
  intros Hloc. unfold sync_loop.
  induction m as [|[filename directory] rest IH]; intros w w' Hrun.
  - inversion Hrun; subst. cbn. rewrite app_nil_r. auto.
  - cbn [for_each] in Hrun. unfold bind in Hrun.
    destruct (download_configuration_file ctx filename directory w)
      as [[[]|e] w1] eqn:Hstep; [|discriminate].
    destruct (download_configuration_file_ok _ _ _ _ _ _ Hloc Hstep) as (body & Hb & ->).
    destruct (IH _ _ Hrun) as (Hf & Hd & Ht & Hall). cbn [files dirs trace] in *.
    split; [|split; [|split]].
    + rewrite Hf. cbn [synced foldl fst snd]. rewrite Hb. reflexivity.
    + exact Hd.
    + rewrite Ht. cbn [flat_map]. rewrite <- app_assoc. reflexivity.
    + constructor; [cbn; rewrite Hb; reflexivity|exact Hall].
Qed.

Lemma synced_lookup_other ctx loc m fs p :
  p ∉ map (fun entry => target_path ctx entry.1 entry.2) m ->
  synced ctx loc m fs !! p = fs !! p.
Proof.
  revert fs. induction m as [|entry rest IH]; intros fs Hp; [reflexivity|].
  cbn [map] in Hp. apply not_elem_of_cons in Hp. destruct Hp as [Hne Hp].
  unfold synced in *. cbn [foldl]. rewrite IH by exact Hp.
  apply lookup_insert_ne. congruence.
Qed.

Lemma synced_lookup ctx loc m fs filename directory :
  NoDup (map (fun entry => target_path ctx entry.1 entry.2) m) ->
  (filename, directory) ∈ m ->
  synced ctx loc m fs !! target_path ctx filename directory
  = Some match remote_object ctx loc filename with
         | Ok body => body
         | Raise _ => []
         end.
Proof.
  revert fs. induction m as [|entry rest IH]; intros fs Hnd Hin.
  - apply elem_of_nil in Hin. contradiction.
  - cbn [map] in Hnd. apply NoDup_cons in Hnd. destruct Hnd as [Hfresh Hnd].
    apply elem_of_cons in Hin. destruct Hin as [<-|Hin].
    + unfold synced. cbn [foldl fst snd].
      change (foldl _ ?a rest) with (synced ctx loc rest a).
      rewrite synced_lookup_other by exact Hfresh. apply lookup_insert_eq.
    + unfold synced. cbn [foldl]. apply (IH _ Hnd Hin).
Qed.

Lemma config_manifest_files ctx w :
  files (snd (config_manifest json_load ctx w)) = files w /\
  dirs (snd (config_manifest json_load ctx w)) = dirs w.
Proof.
  unfold config_manifest, deref, is_object, load_json, open_read.
  destruct (config_location ctx) as [loc|]; [|split; reflexivity].
  cbv zeta. unfold_monad. cbn [files dirs log].
  destruct (head_object _ _ _) as [[]|e].
  - destruct (get_object _ _ _) as [body|e]; [|split; reflexivity].
    destruct (json_load body); split; reflexivity.
  - destruct e; try (split; reflexivity).
    cbn [files dirs log]. case_bool_decide; [split; reflexivity|].
    destruct (files w !! _) as [c|]; [|split; reflexivity].
    destruct (json_load c); split; reflexivity.
Qed.

(** C9. With [m] the resolved manifest: a configuration sync that
    succeeds has written, entry by entry in the order of [m], the bytes of
    the remote child named by the entry's file name to the path
    [working_dir / directory / filename], and has opened and fetched in
    that order; with distinct destinations every entry's file holds
    exactly the remote bytes.  When the entries before some entry succeed
    and that entry fails, the sync fails with its error in the world that
    entry left: nothing is done for the entries after it. *)
Theorem config_sync (ctx : RuntimeContext) (loc : S3Path) (m : manifest) (w w0 : world) :
  config_location ctx = Some loc ->
  config_manifest json_load ctx w = (Ok m, w0) ->
  (forall w',
     download_configuration_files json_load ctx w = (Ok tt, w') ->
     files w' = synced ctx loc m (files w) /\
     trace w' = (trace w0 ++ flat_map (transfer_events ctx loc) m)%list /\
     (NoDup (map (fun entry => target_path ctx entry.1 entry.2) m) ->
      forall filename directory, (filename, directory) ∈ m ->
      exists body,
        remote_object ctx loc filename = Ok body /\
        files w' !! target_path ctx filename directory = Some body)) /\
  (forall pre filename directory post w1 e w2,
     m = (pre ++ (filename, directory) :: post)%list ->
     sync_loop ctx pre w0 = (Ok tt, w1) ->
     download_configuration_file ctx filename directory w1 = (Raise e, w2) ->
     download_configuration_files json_load ctx w = (Raise e, w2)).
Proof.
  intros Hloc Hm.
  assert (Hrun : download_configuration_files json_load ctx w = sync_loop ctx m w0).
  { unfold download_configuration_files, bind. rewrite Hm. reflexivity. }
  pose proof (config_manifest_files ctx w) as [Hfiles _]. rewrite Hm in Hfiles.
  cbn [snd] in Hfiles. rewrite Hrun. split.
  - intros w' Hok.
    destruct (sync_loop_ok ctx loc m Hloc _ _ Hok) as (Hf & _ & Ht & Hall).
    rewrite <- Hfiles. split; [exact Hf|]. split; [exact Ht|].
    intros Hnd filename directory Hin.
    rewrite Forall_forall in Hall. specialize (Hall _ Hin). cbn [fst] in Hall.
    rewrite Hf, (synced_lookup ctx loc m _ _ _ Hnd Hin).
    destruct (remote_object ctx loc filename) as [body|e]; [|discriminate].
    exists body. split; reflexivity.
  - intros pre filename directory post w1 e w2 -> Hpre Hstep.
    unfold sync_loop in *. rewrite for_each_app, Hpre.
    cbn [for_each]. unfold bind. rewrite Hstep. reflexivity.
Qed.

(** ** Maps *)

(** [download_map] writes to its scratch file and to nothing else: the
    destination is opened for reading. *)
Lemma download_map_writes_only_scratch ctx tmpdir obj w p :
  p <> tmpdir // base_name obj ->
  files (snd (download_map bz2_read ctx tmpdir obj w)) !! p = files w !! p.
Proof.
  intros Hp. unfold download_map, open_wb, get, open_read, copyfileobj, write.
  cbv zeta. cbn [fo_path fo_writable]. unfold_monad. cbn [files dirs log].
  repeat first
    [ progress cbn [snd files dirs log set_files]
    | case_bool_decide
    | match goal with
      | |- context [match ?x with _ => _ end] =>
          lazymatch x with
          | context [match _ with _ => _ end] => fail
          | _ => destruct x eqn:?
          end
      end ];
  rewrite ?lookup_insert_ne by congruence; try reflexivity.
Qed.


(** * Further properties of the script *)

(** ** Addresses *)

Lemma append_assoc (a s t : string) : (a ++ s) ++ t = a ++ s ++ t.
Proof.
  induction a as [|d r IH]; [reflexivity|].
  change ((String d r ++ s) ++ t) with (String d ((r ++ s) ++ t)).
  rewrite IH. reflexivity.
Qed.

Lemma contains_app c a s :
  PyStr.contains c (a ++ s) = PyStr.contains c a || PyStr.contains c s.
Proof.
  induction a as [|d r IH]; [reflexivity|].
  change (String d r ++ s) with (String d (r ++ s)). cbn [PyStr.contains].
  rewrite IH. apply orb_assoc.
Qed.

Lemma partition_app_sep c a s :
  PyStr.contains c a = false ->
  PyStr.partition c (a ++ String c s) = (a, s).
Proof.
  induction a as [|d r IH]; cbn [PyStr.contains].
  - intros _. change (EmptyString ++ String c s) with (String c s).
    cbn [PyStr.partition]. rewrite Ascii.eqb_refl. reflexivity.
  - intros H. apply orb_false_iff in H. destruct H as [Hd Hr].
    change (String d r ++ String c s) with (String d (r ++ String c s)).
    cbn [PyStr.partition]. rewrite Hd, (IH Hr). reflexivity.
Qed.

Lemma partition_spec c s :
  PyStr.contains c s = true ->
  s = fst (PyStr.partition c s) ++ String c (snd (PyStr.partition c s)) /\
  PyStr.contains c (fst (PyStr.partition c s)) = false.
Proof.
  induction s as [|d r IH]; cbn [PyStr.contains PyStr.partition]; [discriminate|].
  destruct (Ascii.eqb d c) eqn:E.
  - intros _. apply Ascii.eqb_eq in E. subst d. split; reflexivity.
  - cbn [orb]. intros H. destruct (IH H) as [Heq Hno].
    destruct (PyStr.partition c r) as [a b2]. cbn [fst snd] in *.
    split.
    + change (String d a ++ String c b2) with (String d (a ++ String c b2)).
      f_equal. exact Heq.
    + cbn [PyStr.contains]. rewrite E. exact Hno.
Qed.

Lemma contains_partition_fst d c s :
  PyStr.contains d s = false -> PyStr.contains d (fst (PyStr.partition c s)) = false.
Proof.
  induction s as [|e r IH]; cbn [PyStr.contains PyStr.partition]; [reflexivity|].
  intros H. apply orb_false_iff in H. destruct H as [He Hr].
  destruct (Ascii.eqb e c); [reflexivity|].
  specialize (IH Hr). destruct (PyStr.partition c r) as [a b2]. cbn [fst] in *.
  cbn [PyStr.contains]. rewrite He. exact IH.
Qed.

Lemma partition_fst_free c s :
  PyStr.contains c (fst (PyStr.partition c s)) = false.
Proof.
  induction s as [|e r IH]; cbn [PyStr.partition]; [reflexivity|].
  destruct (Ascii.eqb e c) eqn:E; [reflexivity|].
  destruct (PyStr.partition c r) as [a b2]. cbn [fst] in *.
  cbn [PyStr.contains]. rewrite E. exact IH.
Qed.

Lemma splitnetloc_stop bkt rest :
  PyStr.contains "/" bkt = false -> PyStr.contains "?" bkt = false ->
  PyStr.contains "#" bkt = false ->
  (rest = EmptyString \/
   exists c r, rest = String c r /\
               (Ascii.eqb c "/" || Ascii.eqb c "?" || Ascii.eqb c "#") = true) ->
  UrlParse.splitnetloc (bkt ++ rest) = (bkt, rest).
Proof.
  intros H1 H2 H3 Hrest. induction bkt as [|c r IH].
  - destruct Hrest as [->|(c & r & -> & Hc)]; [reflexivity|].
    change (EmptyString ++ String c r) with (String c r).
    cbn [UrlParse.splitnetloc]. rewrite Hc. reflexivity.
  - cbn [PyStr.contains] in *.
    apply orb_false_iff in H1, H2, H3.
    destruct H1 as [E1 H1], H2 as [E2 H2], H3 as [E3 H3].
    change (String c r ++ rest) with (String c (r ++ rest)).
    cbn [UrlParse.splitnetloc]. rewrite E1, E2, E3. cbn [orb].
    rewrite (IH H1 H2 H3). reflexivity.
Qed.

Lemma splitnetloc_fst_free s :
  PyStr.contains "/" (fst (UrlParse.splitnetloc s)) = false /\
  PyStr.contains "?" (fst (UrlParse.splitnetloc s)) = false /\
  PyStr.contains "#" (fst (UrlParse.splitnetloc s)) = false.
Proof.
  induction s as [|c r IH]; cbn [UrlParse.splitnetloc]; [repeat split|].
  destruct (Ascii.eqb c "/") eqn:E1; [repeat split|].
  destruct (Ascii.eqb c "?") eqn:E2; [repeat split|].
  destruct (Ascii.eqb c "#") eqn:E3; [repeat split|].
  cbn [orb]. destruct (UrlParse.splitnetloc r) as [a b2]. cbn [fst] in *.
  cbn [PyStr.contains]. rewrite E1, E2, E3. exact IH.
Qed.


(** Whatever the address, a parsed location has a bucket without ["/"],
    ["?"] and ["#"] and a key without ["?"] and ["#"]. *)
Theorem from_url_location_shape (u : string) (loc : S3Path) :
  from_url u = Ok (Some loc) ->
  (PyStr.contains "/" (bucket loc) = false /\
   PyStr.contains "?" (bucket loc) = false /\
   PyStr.contains "#" (bucket loc) = false) /\
  PyStr.contains "?" (key loc) = false /\
  PyStr.contains "#" (key loc) = false.
Proof.
  unfold from_url, UrlParse.urlparse.
  destruct (UrlParse.split_scheme u) as [sch url1].
  assert (Hpath : forall url2,
            PyStr.contains "?" (fst (PyStr.partition "?" (fst (PyStr.partition "#" url2)))) = false /\
            PyStr.contains "#" (fst (PyStr.partition "?" (fst (PyStr.partition "#" url2)))) = false).
  { intros url2. split; [apply partition_fst_free|].
    apply contains_partition_fst, partition_fst_free. }
  assert (Hgen : forall nl url2,
            (PyStr.contains "/" nl = false /\ PyStr.contains "?" nl = false /\
             PyStr.contains "#" nl = false) ->
            match
              (let '(url3, frag) := PyStr.partition "#" url2 in
               let '(url4, qry) := PyStr.partition "?" url3 in
               Ok (UrlParse.mkParseResult sch nl url4 qry frag))
            with
            | Raise e => Raise e
            | Ok r =>
                if String.eqb (UrlParse.scheme r) "s3" && is_not_None (UrlParse.netloc r)
                then Ok (Some (mkS3Path (UrlParse.netloc r) (UrlParse.path r)))
                else Ok None
            end = Ok (Some loc) ->
            (PyStr.contains "/" (bucket loc) = false /\
             PyStr.contains "?" (bucket loc) = false /\
             PyStr.contains "#" (bucket loc) = false) /\
            PyStr.contains "?" (key loc) = false /\
            PyStr.contains "#" (key loc) = false).
  { intros nl url2 Hnl. specialize (Hpath url2).
    destruct (PyStr.partition "#" url2) as [url3 frag]. cbn [fst] in Hpath.
    destruct (PyStr.partition "?" url3) as [url4 qry]. cbn [fst] in Hpath.
    cbn [UrlParse.scheme UrlParse.netloc UrlParse.path].
    destruct (String.eqb sch "s3" && is_not_None nl); [|discriminate].
    intros H. injection H as <-. cbn [bucket key]. split; assumption. }
  destruct url1 as [|c1 [|c2 after]].
  - apply Hgen. repeat split.
  - destruct c1 as [[] [] [] [] [] [] [] []]; apply Hgen; repeat split.
  - pose proof (splitnetloc_fst_free after) as Hnl.
    destruct c1 as [[] [] [] [] [] [] [] []];
      try (apply Hgen; repeat split);
    destruct c2 as [[] [] [] [] [] [] [] []];
      try (apply Hgen; repeat split).
    destruct (UrlParse.splitnetloc after) as [nl rest]. cbn [fst] in Hnl.
    destruct (UrlParse.bad_brackets nl); [discriminate|].
    apply Hgen. exact Hnl.
Qed.



(** ** Child locations *)

Lemma join_snoc (l : list string) (f : string) :
  l <> [] -> PyStr.join "/" (l ++ [f]) = PyStr.join "/" l ++ String "/" f.
Proof.
  induction l as [|x rest IH]; [congruence|]. intros _.
  destruct rest as [|y rest'].
  - reflexivity.
  - change (PyStr.join "/" ((x :: y :: rest') ++ [f]))
      with (x ++ String "/" (PyStr.join "/" ((y :: rest') ++ [f]))).
    rewrite IH by discriminate.
    change (PyStr.join "/" (x :: y :: rest'))
      with (x ++ String "/" (PyStr.join "/" (y :: rest'))).
    rewrite append_assoc. reflexivity.
Qed.

Lemma join_cons_nonempty (x : string) (l : list string) :
  l <> [] -> PyStr.join "/" (x :: l) = x ++ String "/" (PyStr.join "/" l).
Proof. destruct l; [congruence|reflexivity]. Qed.

Lemma split_snoc sep a f :
  sep_free sep f ->
  exists init, init <> [] /\ PyStr.split sep (a ++ String sep f) = (init ++ [f])%list.
Proof.
  intros Hf. induction a as [|c r IH].
  - exists [EmptyString]. split; [discriminate|].
    change (EmptyString ++ String sep f) with (String sep f).
    rewrite split_cons_sep, (split_sep_free sep f Hf). reflexivity.
  - destruct IH as (init & Hne & IH).
    change (String c r ++ String sep f) with (String c (r ++ String sep f)).
    cbn [PyStr.split]. rewrite IH. destruct (Ascii.eqb c sep).
    + exists (EmptyString :: init). split; [discriminate|reflexivity].
    + destruct init as [|h t]; [congruence|].
      exists (String c h :: t). split; [discriminate|reflexivity].
Qed.

Lemma last_snoc_default (l : list string) (f d : string) : List.last (l ++ [f]) d = f.
Proof. apply List.last_last. Qed.

(** The base name of a child is the segment it was made with: for a last
    segment without ["/"], [base_name] undoes [navigate], whatever the
    parent key and the segments before it. *)
Theorem base_name_navigate (loc : S3Path) (segments : list string) (f : string) :
  sep_free "/" f -> base_name (navigate loc (segments ++ [f])) = f.
Proof.
  intros Hf. unfold base_name, navigate, PyStr.basename. cbn [key].
  rewrite app_assoc, join_snoc.
  2:{ pose proof (split_nonempty "/" (key loc)).
      destruct (PyStr.split "/" (key loc)); [congruence|discriminate]. }
  change ("/" ++ ?x ++ String "/" f) with (("/" ++ x) ++ String "/" f).
  destruct (split_snoc "/" ("/" ++ PyStr.join "/" (PyStr.split "/" (key loc) ++ segments)) f Hf)
    as (init & _ & ->).
  apply last_snoc_default.
Qed.

(** Two steps are not one: going to a child of a child puts one more
    ["/"] in front of the key than going there in one call. *)
Theorem navigate_twice (loc : S3Path) (first second : list string) :
  Forall (sep_free "/") first ->
  navigate (navigate loc first) second
  = mkS3Path (bucket loc) ("/" ++ key (navigate loc (first ++ second))).
Proof.
  intros Hfirst. unfold navigate at 1. cbn [bucket].
  assert (Hsplit : PyStr.split "/" (key (navigate loc first))
                   = (EmptyString :: PyStr.split "/" (key loc) ++ first)%list).
  { unfold navigate. cbn [key]. change ("/" ++ ?x) with (String "/" x).
    rewrite split_cons_sep. f_equal. apply split_join.
    - pose proof (split_nonempty "/" (key loc)).
      destruct (PyStr.split "/" (key loc)); [congruence|discriminate].
    - apply Forall_app. split; [apply split_parts_sep_free|exact Hfirst]. }
  rewrite Hsplit. f_equal.
  change ((EmptyString :: PyStr.split "/" (key loc) ++ first) ++ second)%list
    with (EmptyString :: ((PyStr.split "/" (key loc) ++ first) ++ second))%list.
  rewrite join_cons_nonempty.
  2:{ pose proof (split_nonempty "/" (key loc)).
      destruct (PyStr.split "/" (key loc)); [congruence|discriminate]. }
  unfold navigate. cbn [key]. rewrite <- app_assoc. reflexivity.
Qed.

(** ** Enumeration and the maps phase, completed *)


Lemma ls_frame self client w :
  files (snd (ls self client (fun _ => ret tt) w)) = files w /\
  dirs (snd (ls self client (fun _ => ret tt) w)) = dirs w.
Proof.
  unfold ls. generalize (paginate client (bucket self) (key self)) as pages.
  intros pages. revert w. induction pages as [|r rest IH]; intros w.
  - split; reflexivity.
  - rewrite for_each_page_step. cbv beta. destruct r as [pg|e]; [|split; reflexivity].
    destruct (pg !! "Contents") as [contents|]; [|split; reflexivity].
    rewrite contents_loop. destruct contents; [|split; reflexivity].
    destruct (IH (log (ListPage (bucket self) (key self)) w)) as [Hf Hd].
    rewrite Hf, Hd. split; reflexivity.
Qed.


Lemma maps_frame ctx consume w :
  files (snd (maps ctx consume w)) = files w /\
  dirs (snd (maps ctx consume w)) = dirs w.
Proof.
  unfold maps, deref. destruct (map_location ctx) as [loc|]; [|split; reflexivity].
  unfold bind, ret. rewrite ls_never_yields. apply ls_frame.
Qed.

Lemma mkdtemp_frame w :
  files (snd (mkdtemp w)) = files w /\
  match fst (mkdtemp w) with
  | Ok tmp => dirs (snd (mkdtemp w)) = {[tmp]} ∪ dirs w
  | Raise _ => dirs (snd (mkdtemp w)) = dirs w
  end.
Proof.
  unfold mkdtemp. destruct (fresh_name _ _ _) as [[n rest]|]; split; reflexivity.
Qed.

Lemma rmtree_outside d w p :
  is_under d p = false ->
  files (rmtree d w) !! p = files w !! p /\
  (p ∈ dirs (rmtree d w) <-> p ∈ dirs w).
Proof.
  intros Hp. unfold rmtree. cbn [files dirs log]. split.
  - rewrite map_lookup_filter. destruct (files w !! p) as [c|]; [|reflexivity].
    cbn. rewrite option_guard_True by (cbn; exact Hp). reflexivity.
  - rewrite elem_of_filter. split; [intros [_ H]; exact H|intros H; split; [exact Hp|exact H]].
Qed.

(** The maps phase changes no file and no directory outside its scratch
    directory, whatever the listing and however the phase ends: nothing is
    ever written into the maps directory. *)
Theorem download_maps_frame (ctx : RuntimeContext) (w : world) (p : Path) :
  (forall tmp, fst (mkdtemp w) = Ok tmp -> is_under tmp p = false) ->
  files (snd (download_maps bz2_read ctx w)) !! p = files w !! p /\
  (p ∈ dirs (snd (download_maps bz2_read ctx w)) <-> p ∈ dirs w).
Proof.
  intros Hp. unfold download_maps.
  pose proof (mkdtemp_frame w) as [Hf Hd].
  destruct (mkdtemp w) as [[tmp|e] w1] eqn:Hmk; cbn [fst snd] in *.
  - specialize (Hp tmp eq_refl).
    rewrite (with_TemporaryDirectory_cleans _ _ _ _ Hmk). cbn [snd].
    destruct (rmtree_outside tmp
                (snd (maps ctx (fun obj => download_map bz2_read ctx tmp obj) w1)) p Hp)
      as [Hrf Hrd].
    destruct (maps_frame ctx (fun obj => download_map bz2_read ctx tmp obj) w1)
      as [Hmf Hmd].
    rewrite Hrf, Hrd, Hmf, Hmd, Hf, Hd. split; [reflexivity|].
    rewrite elem_of_union, elem_of_singleton. split; [|auto].
    intros [->|H]; [|exact H]. rewrite is_under_refl in Hp. discriminate.
  - unfold with_TemporaryDirectory, bind. rewrite Hmk. cbn [snd].
    rewrite Hf, Hd. split; reflexivity.
Qed.

(** ** Steps of the file operations *)

Lemma bind_ok {A B} (m : M A) (k : A -> M B) w b w' :
  bind m k w = (Ok b, w') ->
  exists a w1, m w = (Ok a, w1) /\ k a w1 = (Ok b, w').
Proof.
  unfold bind. destruct (m w) as [[a|e] w1]; [|discriminate].
  intros H. exists a, w1. split; [reflexivity|exact H].
Qed.

Lemma open_wb_ok p w w' :
  open_wb p w = (Ok tt, w') ->
  (p ∉ dirs w) /\ (parent p ∈ dirs w) /\ files w !! parent p = None /\
  w' = mkWorld (<[p := []]> (files w)) (dirs w) (tmp_supply w)
               (trace w ++ [OpenFile p "wb"]).
Proof.
  unfold open_wb. unfold_monad. cbn [files dirs log].
  repeat case_bool_decide; try discriminate.
  intros Heq. inversion Heq. repeat split; try assumption.
  destruct (files w !! parent p) eqn:E; [|reflexivity].
  exfalso. eauto.
Qed.

Lemma open_wb_run p w :
  p ∉ dirs w -> parent p ∈ dirs w -> files w !! parent p = None ->
  open_wb p w = (Ok tt, mkWorld (<[p := []]> (files w)) (dirs w) (tmp_supply w)
                                (trace w ++ [OpenFile p "wb"])).
Proof.
  intros Hnd Hpd Hpf. unfold open_wb. unfold_monad. cbn [files dirs log].
  rewrite bool_decide_eq_false_2 by exact Hnd.
  rewrite bool_decide_eq_false_2 by (rewrite Hpf; intros [? ?]; discriminate).
  rewrite bool_decide_eq_true_2 by exact Hpd. reflexivity.
Qed.

Lemma get_run self client p w :
  get self client (mkFileobj p true) w =
  match download_fileobj client (bucket self) (key self) with
  | Ok body =>
      (Ok tt, mkWorld (<[p := (default [] (files w !! p) ++ body)%list]> (files w))
                      (dirs w) (tmp_supply w)
                      (trace w ++ [DownloadFileobj (bucket self) (key self)]))
  | Raise e =>
      (Raise e, log (DownloadFileobj (bucket self) (key self)) w)
  end.
Proof.
  unfold get, write. cbn [fo_writable fo_path]. unfold_monad.
  destruct (download_fileobj _ _ _); reflexivity.
Qed.

Lemma open_read_ok mode p w c w' :
  open_read mode p w = (Ok c, w') ->
  files w !! p = Some c /\ w' = log (OpenFile p mode) w.
Proof.
  unfold open_read. unfold_monad. cbn [files dirs log].
  case_bool_decide; [discriminate|].
  destruct (files w !! p); [|discriminate].
  intros Heq. inversion Heq. split; reflexivity.
Qed.

Lemma copyfileobj_readonly_ok src p w w' :
  copyfileobj src (mkFileobj p false) w = (Ok tt, w') ->
  src = ([], None) /\ w' = w.
Proof.
  unfold copyfileobj, write. cbn [fo_writable]. unfold_monad.
  destruct src as [[|x data] [e|]]; cbn [fst snd]; try discriminate.
  intros Heq. inversion Heq. split; reflexivity.
Qed.

(** [download_map] returns normally only when the object can be fetched,
    its archive decompresses to nothing, and the file it opens as
    destination is already there (or is the scratch file itself); all it
    leaves behind is the scratch copy of the archive. *)
Theorem download_map_ok (ctx : RuntimeContext) (tmpdir : Path) (obj : S3Path)
    (w w' : world) :
  download_map bz2_read ctx tmpdir obj w = (Ok tt, w') ->
  exists body,
    download_fileobj (s3 ctx) (bucket obj) (key obj) = Ok body /\
    bz2_read body = ([], None) /\
    files w' = <[tmpdir // base_name obj := body]> (files w) /\
    (map_dir ctx // base_name obj = tmpdir // base_name obj \/
     is_Some (files w !! (map_dir ctx // base_name obj))).
Proof.
  unfold download_map. cbv zeta. intros Hrun.
  apply bind_ok in Hrun. destruct Hrun as ([] & w2 & Hfetch & Hrun).
  apply bind_ok in Hfetch. destruct Hfetch as ([] & w1 & Hopen & Hget).
  apply open_wb_ok in Hopen. destruct Hopen as (_ & _ & _ & ->).
  rewrite get_run in Hget. cbn [files dirs tmp_supply trace] in Hget.
  destruct (download_fileobj _ _ _) as [body|e]; [|discriminate].
  rewrite lookup_insert_eq, insert_insert_eq in Hget. cbn [default app] in Hget.
  inversion Hget; subst w2; clear Hget.
  apply bind_ok in Hrun. destruct Hrun as (compressed & w3 & Hread & Hrun).
  apply open_read_ok in Hread. cbn [files] in Hread.
  rewrite lookup_insert_eq in Hread. destruct Hread as [Hc ->].
  injection Hc as <-.
  apply bind_ok in Hrun. destruct Hrun as (dest & w4 & Hdest & Hcopy).
  apply open_read_ok in Hdest. cbn [files log] in Hdest. destruct Hdest as [Hd ->].
  apply copyfileobj_readonly_ok in Hcopy. destruct Hcopy as [Hbz ->].
  exists body. split; [reflexivity|]. split; [exact Hbz|]. split; [reflexivity|].
  destruct (decide (map_dir ctx // base_name obj = tmpdir // base_name obj)) as [Heq|Hne].
  - left. exact Heq.
  - right. rewrite lookup_insert_ne in Hd by congruence. eexists. exact Hd.
Qed.

(** ** Manifest resolution and configuration files, completed *)

(** Manifest resolution only reads: files, directories and the supply of
    temporary names are what they were, however it ends. *)
Theorem manifest_resolution_reads_only (ctx : RuntimeContext) (w : world) :
  files (snd (config_manifest json_load ctx w)) = files w /\
  dirs (snd (config_manifest json_load ctx w)) = dirs w /\
  tmp_supply (snd (config_manifest json_load ctx w)) = tmp_supply w.
Proof.
  destruct (config_manifest_files ctx w) as [Hf Hd].
  split; [exact Hf|]. split; [exact Hd|].
  unfold config_manifest, deref, is_object, load_json, open_read.
  destruct (config_location ctx) as [loc|]; [|reflexivity].
  cbv zeta. unfold_monad. cbn [files dirs log].
  destruct (head_object _ _ _) as [[]|e].
  - destruct (get_object _ _ _) as [body|e]; [|reflexivity].
    destruct (json_load body); reflexivity.
  - destruct e; try reflexivity.
    cbn [files dirs log]. case_bool_decide; [reflexivity|].
    destruct (files w !! _) as [c|]; [|reflexivity].
    destruct (json_load c); reflexivity.
Qed.

(** Once the probe succeeds, the local machine has no say: the resolved
    manifest, or the error, is the same in every world, so neither a
    failed fetch nor an unparsable dynamic manifest falls back to the
    static file. *)
Theorem dynamic_manifest_ignores_files (ctx : RuntimeContext) (loc : S3Path)
    (w v : world) :
  config_location ctx = Some loc ->
  head_object (s3 ctx) (bucket (dynamic_manifest loc)) (key (dynamic_manifest loc))
    = Ok tt ->
  fst (config_manifest json_load ctx w) = fst (config_manifest json_load ctx v) /\
  Forall (fun e => match e with OpenFile _ _ => False | _ => True end)
         (drop (length (trace w)) (trace (snd (config_manifest json_load ctx w)))).
Proof.
  intros Hloc Hhead. unfold config_manifest, deref, is_object, load_json.
  unfold dynamic_manifest in Hhead. rewrite Hloc. cbv zeta. unfold_monad.
  rewrite Hhead. cbn [bucket key].
  destruct (get_object _ _ _) as [body|e].
  - destruct (json_load body); cbn [fst snd trace log];
      (split; [reflexivity|]); rewrite <- app_assoc, drop_app_length;
      repeat constructor.
  - cbn [fst snd trace log]. split; [reflexivity|].
    rewrite <- app_assoc, drop_app_length. repeat constructor.
Qed.




(** There is no third source: when the probe is negative and the static
    manifest file is not there, manifest resolution and the whole
    configuration sync end with [FileNotFoundError], after the probe and
    the attempt to open the file, and nothing has been fetched. *)
Theorem static_manifest_missing (ctx : RuntimeContext) (loc : S3Path) (code : string)
    (w : world) :
  config_location ctx = Some loc ->
  head_object (s3 ctx) (bucket (dynamic_manifest loc)) (key (dynamic_manifest loc))
    = Raise (ClientError code) ->
  static_manifest_path ctx ∉ dirs w ->
  files w !! static_manifest_path ctx = None ->
  config_manifest json_load ctx w
  = (Raise FileNotFoundError,
     log (OpenFile (static_manifest_path ctx) "r") (log (probe loc) w)) /\
  download_configuration_files json_load ctx w
  = (Raise FileNotFoundError,
     log (OpenFile (static_manifest_path ctx) "r") (log (probe loc) w)).
Proof.
  intros Hloc Hhead Hnd Hnf.
  assert (Hm : config_manifest json_load ctx w
               = (Raise FileNotFoundError,
                  log (OpenFile (static_manifest_path ctx) "r") (log (probe loc) w))).
  { unfold config_manifest, deref, is_object, open_read.
    unfold probe, dynamic_manifest in *. rewrite Hloc. cbv zeta. unfold_monad.
    rewrite Hhead. cbn [files dirs log].
    rewrite bool_decide_eq_false_2 by exact Hnd. rewrite Hnf. reflexivity. }
  split; [exact Hm|]. unfold download_configuration_files, bind. rewrite Hm. reflexivity.
Qed.

(** ** Running the synchroniser twice *)

Lemma config_manifest_dynamic ctx loc w :
  config_location ctx = Some loc ->
  head_object (s3 ctx) (bucket (dynamic_manifest loc)) (key (dynamic_manifest loc))
    = Ok tt ->
  config_manifest json_load ctx w
  = (match get_object (s3 ctx) (bucket (dynamic_manifest loc))
                      (key (dynamic_manifest loc)) with
     | Ok body => json_load body
     | Raise e => Raise e
     end, log (fetch loc) (log (probe loc) w)).
Proof.
  intros Hloc Hhead. unfold config_manifest, deref, is_object, load_json.
  unfold probe, fetch, dynamic_manifest in *. rewrite Hloc. cbv zeta. unfold_monad.
  rewrite Hhead. cbn [bucket key].
  destruct (get_object _ _ _) as [body|e]; [|reflexivity].
  destruct (json_load body); reflexivity.
Qed.

(** What an entry needs from the world to be synced. *)
Lemma download_configuration_file_run ctx loc filename directory body w :
  config_location ctx = Some loc ->
  target_path ctx filename directory ∉ dirs w ->
  parent (target_path ctx filename directory) ∈ dirs w ->
  files w !! parent (target_path ctx filename directory) = None ->
  remote_object ctx loc filename = Ok body ->
  download_configuration_file ctx filename directory w
  = (Ok tt, mkWorld (<[target_path ctx filename directory := body]> (files w))
                    (dirs w) (tmp_supply w)
                    (trace w ++ transfer_events ctx loc (filename, directory))).
Proof.
  intros Hloc Hnd Hpd Hpf Hb. unfold download_configuration_file, deref.
  rewrite Hloc. cbv zeta. fold (target_path ctx filename directory).
  unfold bind at 1. unfold ret at 1. unfold bind at 1.
  rewrite (open_wb_run _ _ Hnd Hpd Hpf), get_run.
  unfold remote_object, source_path in Hb. rewrite Hb.
  cbn [files dirs tmp_supply trace].
  rewrite lookup_insert_eq, insert_insert_eq, <- app_assoc. reflexivity.
Qed.

Lemma download_configuration_file_needs ctx loc filename directory w w' :
  config_location ctx = Some loc ->
  download_configuration_file ctx filename directory w = (Ok tt, w') ->
  (target_path ctx filename directory ∉ dirs w) /\
  (parent (target_path ctx filename directory) ∈ dirs w) /\
  files w !! parent (target_path ctx filename directory) = None.
Proof.
  intros Hloc. unfold download_configuration_file, deref. rewrite Hloc. cbv zeta.
  fold (target_path ctx filename directory). intros Hrun.
  apply bind_ok in Hrun. destruct Hrun as (loc' & w1 & Hret & Hrun).
  inversion Hret; subst loc' w1.
  apply bind_ok in Hrun. destruct Hrun as ([] & w2 & Hopen & _).
  apply open_wb_ok in Hopen. destruct Hopen as (H1 & H2 & H3 & _). auto.
Qed.

Lemma sync_loop_needs ctx loc m :
  config_location ctx = Some loc ->
  forall w w', sync_loop ctx m w = (Ok tt, w') -> Forall (entry_ready ctx loc w) m.
Proof.
  intros Hloc. unfold sync_loop.
  induction m as [|[filename directory] rest IH]; intros w w' Hrun; [constructor|].
  cbn [for_each] in Hrun. apply bind_ok in Hrun.
  destruct Hrun as ([] & w1 & Hstep & Hrest).
  destruct (download_configuration_file_needs _ _ _ _ _ _ Hloc Hstep) as (H1 & H2 & H3).
  destruct (download_configuration_file_ok _ _ _ _ _ _ Hloc Hstep) as (body & Hb & ->).
  constructor.
  - unfold entry_ready. cbn [fst snd]. rewrite Hb. auto.
  - specialize (IH _ _ Hrest). eapply Forall_impl; [exact IH|].
    intros entry (E1 & E2 & E3 & E4). cbn [files dirs] in *.
    apply lookup_insert_None in E3. destruct E3 as [E3 _].
    unfold entry_ready. auto.
Qed.

Lemma sync_loop_run ctx loc m :
  config_location ctx = Some loc ->
  forall v, Forall (entry_ready ctx loc v) m ->
  exists v', sync_loop ctx m v = (Ok tt, v') /\
             files v' = synced ctx loc m (files v) /\ dirs v' = dirs v.
Proof.
  intros Hloc. unfold sync_loop.
  induction m as [|[filename directory] rest IH]; intros v Hall.
  - exists v. repeat split.
  - inversion Hall as [|? ? (H1 & H2 & H3 & H4) Hrest]; subst. cbn [fst snd] in *.
    destruct (remote_object ctx loc filename) as [body|e] eqn:Hb; [|discriminate].
    cbn [for_each]. unfold bind.
    rewrite (download_configuration_file_run _ _ _ _ _ _ Hloc H1 H2 H3 Hb).
    match goal with |- context [for_each rest _ ?v1] =>
      destruct (IH v1) as (v' & Hrun & Hf & Hd) end.
    { eapply Forall_impl; [exact Hrest|].
      intros entry (E1 & E2 & E3 & E4). unfold entry_ready. cbn [files dirs].
      repeat split; try assumption.
      rewrite lookup_insert_ne; [exact E3|]. intros Heq. rewrite Heq in H1.
      contradiction. }
    exists v'. split; [exact Hrun|]. cbn [files dirs] in *.
    split; [|exact Hd]. rewrite Hf. unfold synced. cbn [foldl fst snd].
    rewrite Hb. reflexivity.
Qed.

Lemma synced_agree ctx loc m :
  forall fs fs',
    (forall p, p ∉ map (fun entry => target_path ctx entry.1 entry.2) m ->
               fs !! p = fs' !! p) ->
    synced ctx loc m fs = synced ctx loc m fs'.
Proof.
  induction m as [|entry rest IH]; intros fs fs' Hagree.
  - apply map_eq. intros p. apply Hagree. apply not_elem_of_nil.
  - unfold synced. cbn [foldl]. apply IH. intros p Hp.
    destruct (decide (p = target_path ctx entry.1 entry.2)) as [->|Hne].
    + rewrite !lookup_insert_eq. reflexivity.
    + rewrite !lookup_insert_ne by congruence. apply Hagree.
      cbn [map]. apply not_elem_of_cons. split; assumption.
Qed.

Lemma ready_parent_not_target ctx loc w m entry :
  Forall (entry_ready ctx loc w) m -> entry_ready ctx loc w entry ->
  parent (target_path ctx entry.1 entry.2)
    ∉ map (fun entry => target_path ctx entry.1 entry.2) m.
Proof.
  intros Hall (_ & Hp & _). intros Hin. apply list_elem_of_fmap in Hin.
  destruct Hin as (entry' & Heq & Hin').
  rewrite Forall_forall in Hall. destruct (Hall _ Hin') as (Hnd & _).
  rewrite <- Heq in Hnd. contradiction.
Qed.

(** A configuration sync that has succeeded with a dynamic manifest
    succeeds again when repeated right away, and changes no file and no
    directory the second time. *)
Theorem download_configuration_files_twice (ctx : RuntimeContext) (loc : S3Path)
    (w w1 : world) :
  config_location ctx = Some loc ->
  head_object (s3 ctx) (bucket (dynamic_manifest loc)) (key (dynamic_manifest loc))
    = Ok tt ->
  download_configuration_files json_load ctx w = (Ok tt, w1) ->
  exists w2,
    download_configuration_files json_load ctx w1 = (Ok tt, w2) /\
    files w2 = files w1 /\ dirs w2 = dirs w1.
Proof.
  intros Hloc Hhead Hrun. unfold download_configuration_files in *.
  apply bind_ok in Hrun. destruct Hrun as (m & w0 & Hm & Hloop).
  change (sync_loop ctx m w0 = (Ok tt, w1)) in Hloop.
  rewrite (config_manifest_dynamic ctx loc w Hloc Hhead) in Hm.
  pose proof (f_equal fst Hm) as Hres. pose proof (f_equal snd Hm) as Hw0.
  cbn [fst snd] in Hres, Hw0. clear Hm. subst w0.
  pose proof (sync_loop_needs ctx loc m Hloc _ _ Hloop) as Hready.
  destruct (sync_loop_ok ctx loc m Hloc _ _ Hloop) as (Hf1 & Hd1 & _ & _).
  unfold bind. rewrite (config_manifest_dynamic ctx loc w1 Hloc Hhead), Hres.
  change (for_each m _ ?v) with (sync_loop ctx m v).
  set (v := log (fetch loc) (log (probe loc) w1)).
  assert (Hready1 : Forall (entry_ready ctx loc v) m).
  { rewrite Forall_forall. intros entry Hin.
    pose proof Hready as Hall. rewrite Forall_forall in Hall.
    destruct (Hall _ Hin) as (E1 & E2 & E3 & E4).
    unfold entry_ready, v. cbn [files dirs log]. rewrite Hd1.
    repeat split; try assumption.
    rewrite Hf1, synced_lookup_other; [exact E3|].
    eapply ready_parent_not_target; [exact Hready|]. apply Hall, Hin. }
  destruct (sync_loop_run ctx loc m Hloc v Hready1) as (w2 & Hrun2 & Hf2 & Hd2).
  exists w2. split; [exact Hrun2|]. unfold v in Hf2, Hd2. cbn [files dirs log] in *.
  split; [|exact Hd2]. rewrite Hf2, Hf1. apply synced_agree.
  intros p Hp. apply synced_lookup_other. exact Hp.
Qed.

(** ** What [main] shows of a run *)

Lemma emits_weaken {A} (P Q : event -> bool) (m : M A) :
  (forall e, P e = true -> Q e = true) -> emits P m -> emits Q m.
Proof.
  intros HPQ Hm w. destruct (Hm w) as (t & E & F). exists t. split; [exact E|].
  eapply Forall_impl; [exact F|]. exact HPQ.
Qed.

Lemma emits_ext {A} (P : event -> bool) (m m' : M A) :
  (forall w, m w = m' w) -> emits P m' -> emits P m.
Proof. intros Hext Hm w. rewrite Hext. apply Hm. Qed.

Lemma emits_new_events {A} (P : event -> bool) (m : M A) w :
  emits P m ->
  Forall (fun e => P e = true) (drop (length (trace w)) (trace (snd (m w)))).
Proof.
  intros Hm. destruct (Hm w) as (t & -> & F). rewrite drop_app_length. exact F.
Qed.

(** Only [main] prints: the two synchronisers are silent. *)
Lemma download_maps_silent ctx :
  emits (fun e => negb (is_print e)) (download_maps bz2_read ctx).
Proof.
  unfold download_maps, with_TemporaryDirectory.
  apply emits_bind; [apply emits_mkdtemp; reflexivity|intros tmpdir].
  apply emits_finally.
  - unfold maps, deref. apply emits_bind; [emits_auto|intros loc].
    apply emits_ls; [reflexivity|intros obj].
    destruct (PyStr.endswith _ _); [|apply emits_ret].
    unfold download_map. cbv zeta.
    apply emits_bind; [|intros _].
    { apply emits_bind; [apply emits_open_wb; reflexivity|intros _].
      apply emits_get; reflexivity. }
    apply emits_bind; [apply emits_open_read; reflexivity|intros ?].
    apply emits_bind; [apply emits_open_read; reflexivity|intros ?].
    apply emits_copyfileobj.
  - intros w. exists [RmTree tmpdir]. split; [reflexivity|repeat constructor].
Qed.

Lemma download_configuration_files_silent ctx :
  emits (fun e => negb (is_print e)) (download_configuration_files json_load ctx).
Proof.
  unfold download_configuration_files.
  apply emits_bind.
  - unfold config_manifest, deref. apply emits_bind; [emits_auto|intros loc]. cbv zeta.
    apply emits_bind.
    + unfold is_object. emits_auto.
    + intros [|].
      * unfold load_json. emits_auto.
      * apply emits_bind; [apply emits_open_read; reflexivity|intros ?; apply emits_lift].
  - intros m. apply emits_for_each. intros [filename directory].
    unfold download_configuration_file, deref. cbv zeta.
    apply emits_bind; [emits_auto|intros loc].
    apply emits_bind; [apply emits_open_wb; reflexivity|intros _].
    apply emits_get; reflexivity.
Qed.

Lemma silent_not_success e : negb (is_print e) = true -> not_success_notice e = true.
Proof. destruct e; try reflexivity. discriminate. Qed.

Lemma maps_phase_not_success ctx : emits not_success_notice (maps_phase bz2_read ctx).
Proof.
  unfold maps_phase, deref. destruct (is_maps_provided ctx).
  - apply emits_bind; [emits_auto|intros loc].
    apply emits_bind; [apply emits_emit; reflexivity|intros _].
    eapply emits_weaken; [exact silent_not_success|apply download_maps_silent].
  - apply emits_emit; reflexivity.
Qed.

Lemma config_phase_not_success ctx : emits not_success_notice (config_phase json_load ctx).
Proof.
  unfold config_phase, deref. destruct (is_config_provided ctx).
  - apply emits_bind; [emits_auto|intros loc].
    apply emits_bind; [apply emits_emit; reflexivity|intros _].
    eapply emits_weaken; [exact silent_not_success|].
    apply download_configuration_files_silent.
  - apply emits_emit; reflexivity.
Qed.

(** The line that announces success is the last thing a successful run
    shows, and a run that fails never shows it; the value a run returns
    is always 0. *)
Theorem success_notice_iff (env : Env) (map_url config_url : string) (w : world) :
  match fst (main json_load bz2_read env map_url config_url w) with
  | Ok n =>
      n = 0%Z /\
      last (trace (snd (main json_load bz2_read env map_url config_url w)))
      = Some (Print "Server configuration successful - starting SRCDS...")
  | Raise _ =>
      Forall (fun e => is_success_notice e = false)
             (drop (length (trace w))
                   (trace (snd (main json_load bz2_read env map_url config_url w))))
  end.
Proof.
  rewrite main_phases.
  assert (Hneg : forall t, Forall (fun e => not_success_notice e = true) t ->
                           Forall (fun e => is_success_notice e = false) t).
  { intros t H. eapply Forall_impl; [exact H|]. intros e. apply negb_true_iff. }
  set (tail := fun ctx : RuntimeContext =>
         bind (maps_phase bz2_read ctx) (fun _ => config_phase json_load ctx)).
  assert (Htail : forall ctx, emits not_success_notice (tail ctx)).
  { intros ctx. apply emits_bind; [apply maps_phase_not_success|intros _].
    apply config_phase_not_success. }
  assert (Hpre : emits not_success_notice
            (bind (print "Beginning server configuration...")
                  (fun _ => bind (from_urls env map_url config_url) tail))).
  { apply emits_bind; [apply emits_emit; reflexivity|intros _].
    apply emits_bind; [|exact Htail]. unfold from_urls. emits_auto. }
  pose proof (emits_new_events _ _ w Hpre) as Hev.
  unfold tail in Hev. unfold bind in *.
  destruct (print "Beginning server configuration..." w) as [[[]|e0] w0];
    [|exact (Hneg _ Hev)].
  destruct (from_urls env map_url config_url w0) as [[ctx|e1] w1];
    [|exact (Hneg _ Hev)].
  destruct (maps_phase bz2_read ctx w1) as [[[]|e2] w2]; [|exact (Hneg _ Hev)].
  destruct (config_phase json_load ctx w2) as [[[]|e3] w3]; [|exact (Hneg _ Hev)].
  unfold print, emit, ret. cbn [fst snd trace log]. split; [reflexivity|].
  apply last_snoc.
Qed.

(** Without a maps address the run lists nothing and makes no scratch
    directory. *)
Theorem main_skips_maps (env : Env) (map_url config_url : string) (w : world) :
  from_url map_url = Ok None ->
  Forall (fun e => is_maps_event e = false)
         (drop (length (trace w))
               (trace (snd (main json_load bz2_read env map_url config_url w)))).
Proof.
  intros Hm.
  assert (Hemits : emits not_maps_event (main json_load bz2_read env map_url config_url)).
  { eapply (emits_ext _ _
      (print "Beginning server configuration..." ;;
       cl ← lift (from_url config_url);
       print "Skipping custom map download - no map repository provided" ;;
       config_phase json_load
         (mkRuntimeContext None cl (cwd env) (home env) (boto3_client env)) ;;
       print "Server configuration successful - starting SRCDS..." ;;
       ret 0%Z)).
    - intros w'. rewrite main_phases. unfold from_urls, maps_phase, bind, lift, ret.
      rewrite Hm. destruct (print _ w') as [[[]|e] w0]; [|reflexivity].
      destruct (from_url config_url); reflexivity.
    - apply emits_bind; [apply emits_emit; reflexivity|intros _].
      apply emits_bind; [apply emits_lift|intros cl].
      apply emits_bind; [apply emits_emit; reflexivity|intros _].
      apply emits_bind; [apply config_phase_not_maps|intros _].
      apply emits_bind; [apply emits_emit; reflexivity|intros _]. apply emits_ret. }
  pose proof (emits_new_events _ _ w Hemits) as Hev.
  eapply Forall_impl; [exact Hev|]. intros e. apply negb_true_iff.
Qed.

(** Without a configuration address the run makes no existence probe,
    fetches no manifest and opens no manifest file. *)
Theorem main_skips_config (env : Env) (map_url config_url : string) (w : world) :
  from_url config_url = Ok None ->
  Forall (fun e => is_config_event e = false)
         (drop (length (trace w))
               (trace (snd (main json_load bz2_read env map_url config_url w)))).
Proof.
  intros Hc.
  assert (Hemits : emits not_config_event (main json_load bz2_read env map_url config_url)).
  { eapply (emits_ext _ _
      (print "Beginning server configuration..." ;;
       ml ← lift (from_url map_url);
       maps_phase bz2_read
         (mkRuntimeContext ml None (cwd env) (home env) (boto3_client env)) ;;
       print "Skipping dynamic configuration - no configuration repository provided" ;;
       print "Server configuration successful - starting SRCDS..." ;;
       ret 0%Z)).
    - intros w'. rewrite main_phases. unfold from_urls, config_phase, bind, lift, ret.
      rewrite Hc. destruct (print _ w') as [[[]|e] w0]; [|reflexivity].
      destruct (from_url map_url); reflexivity.
    - apply emits_bind; [apply emits_emit; reflexivity|intros _].
      apply emits_bind; [apply emits_lift|intros ml].
      apply emits_bind; [apply maps_phase_not_config|intros _].
      apply emits_bind; [apply emits_emit; reflexivity|intros _].
      apply emits_bind; [apply emits_emit; reflexivity|intros _]. apply emits_ret. }
  pose proof (emits_new_events _ _ w Hemits) as Hev.
  eapply Forall_impl; [exact Hev|]. intros e. apply negb_true_iff.
Qed.

(** Both addresses are parsed before either phase starts: when the
    parser raises on one of them, the run ends with that error after its
    first line of output, also when it is the configuration address and a
    usable maps address was given. *)
Theorem main_bad_address (env : Env) (map_url config_url : string) (e : exn) (w : world) :
  from_url map_url = Raise e \/
  (is_ok (from_url map_url) = true /\ from_url config_url = Raise e) ->
  main json_load bz2_read env map_url config_url w
  = (Raise e, log (Print "Beginning server configuration...") w).
Proof.
  intros H. unfold main, from_urls. unfold_monad.
  destruct H as [-> | [Hok ->]]; [reflexivity|].
  destruct (from_url map_url); [reflexivity|discriminate].
Qed.
End Properties.

(** * The properties on the fixture deployment *)

Import Fixture.

(** A run is its result paired with the world it ends in. *)
Lemma run_eq {A} (p : result A * world) (r : result A) :
  fst p = r -> p = (r, snd p).
Proof. intros <-. destruct p; reflexivity. Qed.

(** C1, as stated, fails: a probe refused with 403 is not a "not found",
    yet manifest resolution answers with the static manifest and the run
    ends with the success code. *)
Lemma probe_forbidden_falls_back :
  head_object store_forbidden (bucket (dynamic_manifest config_loc))
              (key (dynamic_manifest config_loc)) = Raise (ClientError "403") /\
  fst (config_manifest toy_json (ctx_of store_forbidden) w0)
    = Ok [("server.cfg", "cfg")] /\
  fst (main toy_json toy_bz2 (env_of store_forbidden) "" "s3://cfg/gmod" w0) = Ok 0%Z.
Proof. split; [reflexivity|]. split; vm_compute; reflexivity. Qed.

Lemma probe_error_policy_witness :
  config_location (ctx_of store_unreachable) = Some config_loc /\
  config_manifest toy_json (ctx_of store_unreachable) w0
    = (Raise (BotoCoreError "EndpointConnectionError"), log (probe config_loc) w0) /\
  download_configuration_files toy_json (ctx_of store_unreachable) w0
    = (Raise (BotoCoreError "EndpointConnectionError"), log (probe config_loc) w0).
Proof.
  split; [reflexivity|].
  exact (probe_error_policy toy_json (ctx_of store_unreachable) config_loc
           (BotoCoreError "EndpointConnectionError") w0 eq_refl eq_refl).
Defined.


(** An unreachable store: the maps phase fails at the first page request
    and [main] ends there, with the error of the maps phase. *)
Lemma maps_phase_before_config_phase_witness :
  let w1 := log (Print "Beginning server configuration...") w0 in
  let w2 := snd (maps_phase toy_bz2 (ctx_of store_unreachable) w1) in
  from_urls (env_of store_unreachable) "s3://fastdl/gmod/maps" "s3://cfg/gmod" w1
    = (Ok (ctx_of store_unreachable), w1) /\
  maps_phase toy_bz2 (ctx_of store_unreachable) w1
    = (Raise (BotoCoreError "EndpointConnectionError"), w2) /\
  main toy_json toy_bz2 (env_of store_unreachable)
       "s3://fastdl/gmod/maps" "s3://cfg/gmod" w0
    = (Raise (BotoCoreError "EndpointConnectionError"), w2).
Proof.
  cbv zeta.
  set (w1 := log (Print "Beginning server configuration...") w0).
  assert (Hu : from_urls (env_of store_unreachable) "s3://fastdl/gmod/maps"
                 "s3://cfg/gmod" w1 = (Ok (ctx_of store_unreachable), w1))
    by reflexivity.
  assert (Hr : fst (maps_phase toy_bz2 (ctx_of store_unreachable) w1)
               = Raise (BotoCoreError "EndpointConnectionError"))
    by (vm_compute; reflexivity).
  pose proof (run_eq (maps_phase toy_bz2 (ctx_of store_unreachable) w1) _ Hr) as Hm.
  split; [exact Hu|]. split; [exact Hm|].
  destruct (maps_phase_before_config_phase toy_json toy_bz2 (env_of store_unreachable)
              "s3://fastdl/gmod/maps" "s3://cfg/gmod" w0) as (tm & tc & _ & _ & _ & H).
  exact (proj1 (H _ _ _ _ Hu Hm)).
Defined.

Lemma scratch_removed_witness :
  mkdtemp w0 = (Ok scratch, snd (mkdtemp w0)) /\
  (scratch ∉ dirs (snd (download_maps toy_bz2 (ctx_of store_dynamic) w0))) /\
  files (snd (download_maps toy_bz2 (ctx_of store_dynamic) w0))
    !! (scratch // "a.bsp.bz2") = None.
Proof.
  assert (Hr : fst (mkdtemp w0) = Ok scratch) by (vm_compute; reflexivity).
  pose proof (run_eq (mkdtemp w0) _ Hr) as Hmk.
  split; [exact Hmk|].
  destruct (scratch_removed toy_bz2 (ctx_of store_dynamic) w0 _ scratch Hmk)
    as (Hd & Hf & _).
  split; [exact Hd|]. apply Hf. vm_compute. reflexivity.
Defined.


(** The manifest of the specification's example, a working directory
    [/srv]: both files arrive with the remote bytes. *)
Lemma config_sync_witness :
  let ctx := ctx_of store_dynamic in
  let w' := snd (download_configuration_files toy_json ctx w0) in
  config_location ctx = Some config_loc /\
  download_configuration_files toy_json ctx w0 = (Ok tt, w') /\
  files w' !! target_path ctx "server.cfg" "cfg" = Some (payload "//gmod/server.cfg") /\
  files w' !! target_path ctx "motd.txt" "cfg" = Some (payload "//gmod/motd.txt").
Proof.
  cbv zeta. set (ctx := ctx_of store_dynamic).
  assert (Hr1 : fst (config_manifest toy_json ctx w0)
                = Ok [("server.cfg", "cfg"); ("motd.txt", "cfg")])
    by (vm_compute; reflexivity).
  pose proof (run_eq (config_manifest toy_json ctx w0) _ Hr1) as Hm.
  assert (Hr2 : fst (download_configuration_files toy_json ctx w0) = Ok tt)
    by (vm_compute; reflexivity).
  pose proof (run_eq (download_configuration_files toy_json ctx w0) _ Hr2) as Hrun.
  split; [reflexivity|]. split; [exact Hrun|].
  destruct (proj1 (config_sync toy_json ctx config_loc _ w0 _ eq_refl Hm) _ Hrun)
    as (_ & _ & Hper).
  assert (Hnd : NoDup (map (fun entry => target_path ctx entry.1 entry.2)
                         [("server.cfg", "cfg"); ("motd.txt", "cfg")])).
  { apply NoDup_cons. split; [|apply NoDup_singleton].
    vm_compute. intros H. apply list_elem_of_singleton in H. discriminate H. }
  split.
  - destruct (Hper Hnd "server.cfg" "cfg") as (body & Hb & Hf).
    + apply elem_of_cons. left. reflexivity.
    + rewrite Hf. f_equal. vm_compute in Hb. injection Hb as <-. reflexivity.
  - destruct (Hper Hnd "motd.txt" "cfg") as (body & Hb & Hf).
    + apply elem_of_cons. right. apply elem_of_cons. left. reflexivity.
    + rewrite Hf. f_equal. vm_compute in Hb. injection Hb as <-. reflexivity.
Defined.

Lemma enumeration_requires_contents_witness :
  map_location (ctx_of store_empty) = Some maps_loc /\
  is_ok (fst (download_maps toy_bz2 (ctx_of store_empty) w0)) = false /\
  ls maps_loc store_empty (fun _ => ret tt) w0
    = (Raise (KeyError "Contents"), log (ListPage "fastdl" "/gmod/maps") w0).
Proof.
  split; [reflexivity|].
  destruct (enumeration_requires_contents toy_bz2 (ctx_of store_empty) maps_loc ∅ eq_refl)
    as (_ & Hmaps & Hls).
  - apply list_elem_of_singleton. reflexivity.
  - reflexivity.
  - split; [apply Hmaps|]. apply (Hls eq_refl).
Defined.

(** ** The map synchroniser on the specification's example *)

Example target_path_example :
  target_path (ctx_of store_dynamic) "server.cfg" "cfg" = parse "/srv/cfg/server.cfg".
Proof. reflexivity. Qed.

(** C2. The listing [a.bsp.bz2, a.txt, b.bsp.bz2], every object present
    and a valid archive.  The maps phase ends with [TypeError] at the
    first entry of the listing, and [maps/a.bsp] and [maps/b.bsp] do not
    exist afterwards.  Nor does [download_map], handed the first object
    directly, produce [a.bsp]: it opens [maps/a.bsp.bz2] for reading,
    which does not exist; and where that file exists, the copy into it is
    refused. *)
Theorem download_maps_example :
  let ctx := ctx_of store_dynamic in
  let a := mkS3Path "fastdl" "/gmod/maps/a.bsp.bz2" in
  (fst (download_maps toy_bz2 ctx w0)
     = Raise (TypeError "missing 1 required positional argument: 'object'") /\
   files (snd (download_maps toy_bz2 ctx w0)) !! (srv // "maps" // "a.bsp") = None /\
   files (snd (download_maps toy_bz2 ctx w0)) !! (srv // "maps" // "b.bsp") = None) /\
  (fst (download_map toy_bz2 ctx scratch a w_scratch) = Raise FileNotFoundError /\
   files (snd (download_map toy_bz2 ctx scratch a w_scratch))
     !! (srv // "maps" // "a.bsp") = None) /\
  (fst (download_map toy_bz2 ctx scratch a w_taken) = Raise (UnsupportedOperation "write") /\
   files (snd (download_map toy_bz2 ctx scratch a w_taken))
     !! (srv // "maps" // "a.bsp") = None /\
   files (snd (download_map toy_bz2 ctx scratch a w_taken))
     !! (srv // "maps" // "a.bsp.bz2") = Some []).
Proof. intros ctx a. repeat split; vm_compute; reflexivity. Qed.

(** ** The further properties on the fixture deployment *)

Lemma wellformed_fastdl :
  wellformed_bucket "fastdl.example" /\ wellformed_key "/gmod/maps".
Proof.
  split.
  - repeat split; try reflexivity. discriminate.
  - split; [right; eexists; reflexivity|split; reflexivity].
Qed.



Lemma from_url_location_shape_witness :
  from_url "s3://fastdl/gmod/maps?x#y" = Ok (Some (mkS3Path "fastdl" "/gmod/maps")) /\
  PyStr.contains "/" "fastdl" = false /\
  PyStr.contains "?" "/gmod/maps" = false.
Proof.
  split; [reflexivity|].
  destruct (from_url_location_shape "s3://fastdl/gmod/maps?x#y"
              (mkS3Path "fastdl" "/gmod/maps") eq_refl) as ((H1 & _ & _) & H2 & _).
  split; [exact H1|exact H2].
Defined.


Lemma base_name_navigate_witness :
  sep_free "/" "server.cfg" /\
  base_name (navigate config_loc ([] ++ ["server.cfg"])) = "server.cfg".
Proof.
  split; [reflexivity|].
  exact (base_name_navigate config_loc [] "server.cfg" eq_refl).
Defined.

Lemma navigate_twice_witness :
  Forall (sep_free "/") ["cfg"] /\
  navigate (navigate config_loc ["cfg"]) ["server.cfg"]
  = mkS3Path "cfg" ("/" ++ key (navigate config_loc (["cfg"] ++ ["server.cfg"]))).
Proof.
  assert (H : Forall (sep_free "/") ["cfg"]) by (repeat constructor).
  split; [exact H|]. exact (navigate_twice config_loc ["cfg"] ["server.cfg"] H).
Defined.

Lemma hollow_pages :
  Forall (fun r : result page => exists pg, r = Ok pg /\ pg !! "Contents" = Some [])
         (paginate store_hollow (bucket maps_loc) (key maps_loc)).
Proof. repeat constructor. eexists. split; reflexivity. Qed.



Lemma download_maps_frame_witness :
  (forall tmp, fst (mkdtemp w0) = Ok tmp -> is_under tmp (srv // "maps" // "a.bsp") = false) /\
  files (snd (download_maps toy_bz2 (ctx_of store_dynamic) w0)) !! (srv // "maps" // "a.bsp")
  = files w0 !! (srv // "maps" // "a.bsp").
Proof.
  assert (H : forall tmp, fst (mkdtemp w0) = Ok tmp ->
                          is_under tmp (srv // "maps" // "a.bsp") = false).
  { intros tmp Htmp. vm_compute in Htmp. injection Htmp as <-. vm_compute. reflexivity. }
  split; [exact H|].
  exact (proj1 (download_maps_frame toy_bz2 (ctx_of store_dynamic) w0 _ H)).
Defined.

Lemma download_map_writes_only_scratch_witness :
  srv // "maps" // "a.bsp.bz2" <> scratch // base_name a_map /\
  files (snd (download_map toy_bz2 (ctx_of store_dynamic) scratch a_map w_taken))
    !! (srv // "maps" // "a.bsp.bz2")
  = files w_taken !! (srv // "maps" // "a.bsp.bz2").
Proof.
  assert (H : srv // "maps" // "a.bsp.bz2" <> scratch // base_name a_map)
    by (vm_compute; discriminate).
  split; [exact H|].
  exact (download_map_writes_only_scratch toy_bz2 (ctx_of store_dynamic) scratch a_map
           w_taken _ H).
Defined.

Lemma download_map_ok_witness :
  fst (download_map toy_bz2 (ctx_of store_hollow) scratch a_map w_taken) = Ok tt /\
  exists body,
    download_fileobj store_hollow "fastdl" "/gmod/maps/a.bsp.bz2" = Ok body /\
    toy_bz2 body = ([], None).
Proof.
  assert (Hr : fst (download_map toy_bz2 (ctx_of store_hollow) scratch a_map w_taken) = Ok tt)
    by (vm_compute; reflexivity).
  split; [exact Hr|].
  destruct (download_map_ok toy_bz2 (ctx_of store_hollow) scratch a_map w_taken _
              (run_eq _ _ Hr)) as (body & Hb & Hz & _).
  exists body. split; [exact Hb|exact Hz].
Defined.

Lemma dynamic_manifest_ignores_files_witness :
  config_location (ctx_of store_dynamic) = Some config_loc /\
  fst (config_manifest toy_json (ctx_of store_dynamic) w0)
  = fst (config_manifest toy_json (ctx_of store_dynamic) w_taken).
Proof.
  split; [reflexivity|].
  exact (proj1 (dynamic_manifest_ignores_files toy_json (ctx_of store_dynamic) config_loc
                  w0 w_taken eq_refl eq_refl)).
Defined.




Lemma download_configuration_files_twice_witness :
  fst (download_configuration_files toy_json (ctx_of store_dynamic) w0) = Ok tt /\
  exists w2,
    download_configuration_files toy_json (ctx_of store_dynamic)
      (snd (download_configuration_files toy_json (ctx_of store_dynamic) w0))
    = (Ok tt, w2) /\
    files w2 = files (snd (download_configuration_files toy_json (ctx_of store_dynamic) w0)).
Proof.
  assert (Hr : fst (download_configuration_files toy_json (ctx_of store_dynamic) w0) = Ok tt)
    by (vm_compute; reflexivity).
  split; [exact Hr|].
  destruct (download_configuration_files_twice toy_json (ctx_of store_dynamic) config_loc
              w0 _ eq_refl eq_refl (run_eq _ _ Hr)) as (w2 & Hrun & Hf & _).
  exists w2. split; [exact Hrun|exact Hf].
Defined.

Lemma main_skips_maps_witness :
  from_url "" = Ok None /\
  Forall (fun e => is_maps_event e = false)
         (drop (length (trace w0))
               (trace (snd (main toy_json toy_bz2 (env_of store_dynamic) ""
                                 "s3://cfg/gmod" w0)))).
Proof.
  split; [reflexivity|].
  exact (main_skips_maps toy_json toy_bz2 (env_of store_dynamic) "" "s3://cfg/gmod" w0 eq_refl).
Defined.

Lemma main_skips_config_witness :
  from_url "" = Ok None /\
  Forall (fun e => is_config_event e = false)
         (drop (length (trace w0))
               (trace (snd (main toy_json toy_bz2 (env_of store_dynamic)
                                 "s3://fastdl/gmod/maps" "" w0)))).
Proof.
  split; [reflexivity|].
  exact (main_skips_config toy_json toy_bz2 (env_of store_dynamic)
           "s3://fastdl/gmod/maps" "" w0 eq_refl).
Defined.

Lemma main_bad_address_witness :
  is_ok (from_url "s3://fastdl/gmod/maps") = true /\
  from_url "s3://[cfg/gmod" = Raise (ValueError "Invalid IPv6 URL") /\
  main toy_json toy_bz2 (env_of store_dynamic) "s3://fastdl/gmod/maps" "s3://[cfg/gmod" w0
  = (Raise (ValueError "Invalid IPv6 URL"),
     log (Print "Beginning server configuration...") w0).
Proof.
  split; [reflexivity|]. split; [reflexivity|].
  apply main_bad_address. right. split; reflexivity.
Defined.


Lemma static_manifest_missing_witness :
  files w_bare !! static_manifest_path (ctx_of store_empty) = None /\
  download_configuration_files toy_json (ctx_of store_empty) w_bare
  = (Raise FileNotFoundError,
     log (OpenFile (static_manifest_path (ctx_of store_empty)) "r")
         (log (probe config_loc) w_bare)).
Proof.
  assert (H1 : static_manifest_path (ctx_of store_empty) ∉ dirs w_bare)
    by (apply (bool_decide_eq_false_1 _); vm_compute; reflexivity).
  assert (H2 : files w_bare !! static_manifest_path (ctx_of store_empty) = None)
    by (vm_compute; reflexivity).
  split; [exact H2|].
  exact (proj2 (static_manifest_missing toy_json (ctx_of store_empty) config_loc "404"
                  w_bare eq_refl eq_refl H1 H2)).
Defined.
